(** * pygameflow: the View / EventManager / Window composition model

    A shallow embedding of [pygameflow/event.py], [pygameflow/_time.py],
    [pygameflow/window_commands.py], [pygameflow/window.py] and
    [pygameflow/view.py].

    Python objects live in a store and are named by references, a [dict]
    whose iteration order is observable is an ordered association list, a
    [dict] that is only indexed is a finite map, and a function that may
    raise returns an [Outcome].  A [float] is the rational number it stands
    for: the code only divides by one and never compares two. *)

From stdpp Require Import gmap strings list fin_maps.
From Stdlib Require Import ZArith Lia QArith_base.

Open Scope Z_scope.
Open Scope string_scope.

(** ** Python values and callables *)

(** The values that travel through event payloads and handler arguments. *)
Inductive PyVal :=
| VNone
| VInt (n : Z)
| VStr (s : string)
| VTuple (l : list Z).

(** What a window is cleared with: [pygame.Color((r, g, b))] or a colour
    name such as ["black"]. *)
Inductive Color :=
| RGB (r g b : Z)
| Named (name : string).

(** The object a callable is bound to: a [Window] instance, a [View]
    instance, or nothing (a plain function, identified by a number). *)
Inductive Obj :=
| WindowObj (r : nat)
| ViewObj (r : nat)
| Function (id : nat).

(** A callable: [self.on_draw] is the method named ["on_draw"] bound to
    [self].  Two bound methods are equal in Python when they have the same
    [__self__] and the same underlying function. *)
Record Callback := { __self__ : Obj; __name__ : string }.

#[global] Instance PyVal_eq_dec : EqDecision PyVal.
Proof. solve_decision. Defined.
#[global] Instance Obj_eq_dec : EqDecision Obj.
Proof. solve_decision. Defined.
#[global] Instance Callback_eq_dec : EqDecision Callback.
Proof. solve_decision. Defined.

(** The exceptions the code raises or lets through; [PygameError] is
    [pygame.error]. *)
Inductive Exn :=
| RuntimeError (msg : string)
| TypeError
| AttributeError (attr : string)
| RecursionError
| SystemExit
| ZeroDivisionError
| OverflowError
| PygameError (msg : string)
| UserError (tag : nat).

(** ** pygame's event types

    The code uses the constants of [pygame.constants] only as dictionary
    keys, and [pygame.USEREVENT] as the base that custom types are offsets
    of.  The twelve constants that [Window] wires are distinct integers and
    so distinct constructors; [USEREVENT offset] is [pygame.USEREVENT +
    offset] and stands for every other type (the custom ones have a
    positive offset). *)
Inductive EventType :=
| QUIT | WINDOWFOCUSGAINED | WINDOWFOCUSLOST | KEYDOWN | KEYUP
| WINDOWLEAVE | WINDOWENTER | MOUSEMOTION | MOUSEBUTTONDOWN
| MOUSEBUTTONUP | MOUSEWHEEL | WINDOWRESIZED
| USEREVENT (offset : Z).

#[global] Instance EventType_eq_dec : EqDecision EventType.
Proof. solve_decision. Defined.

Definition EventType_code (ty : EventType) : nat + Z :=
  match ty with
  | QUIT => inl 0%nat | WINDOWFOCUSGAINED => inl 1%nat
  | WINDOWFOCUSLOST => inl 2%nat | KEYDOWN => inl 3%nat
  | KEYUP => inl 4%nat | WINDOWLEAVE => inl 5%nat
  | WINDOWENTER => inl 6%nat | MOUSEMOTION => inl 7%nat
  | MOUSEBUTTONDOWN => inl 8%nat | MOUSEBUTTONUP => inl 9%nat
  | MOUSEWHEEL => inl 10%nat | WINDOWRESIZED => inl 11%nat
  | USEREVENT z => inr z
  end.

Definition EventType_of_code (c : nat + Z) : EventType :=
  match c with
  | inl 0%nat => QUIT | inl 1%nat => WINDOWFOCUSGAINED
  | inl 2%nat => WINDOWFOCUSLOST | inl 3%nat => KEYDOWN
  | inl 4%nat => KEYUP | inl 5%nat => WINDOWLEAVE
  | inl 6%nat => WINDOWENTER | inl 7%nat => MOUSEMOTION
  | inl 8%nat => MOUSEBUTTONDOWN | inl 9%nat => MOUSEBUTTONUP
  | inl 10%nat => MOUSEWHEEL | inl _ => WINDOWRESIZED
  | inr z => USEREVENT z
  end.

#[global] Instance EventType_countable : Countable EventType.
Proof.
  apply (inj_countable' EventType_code EventType_of_code).
  intros []; reflexivity.
Defined.

(** The event types [Window.__register_events] wires. *)
Definition builtin_event_types : list EventType :=
  [QUIT; WINDOWFOCUSGAINED; WINDOWFOCUSLOST; KEYDOWN; KEYUP; WINDOWLEAVE;
   WINDOWENTER; MOUSEMOTION; MOUSEBUTTONDOWN; MOUSEBUTTONUP; MOUSEWHEEL;
   WINDOWRESIZED].

(** ** Ordered dictionaries keyed by strings

    A Python [dict] keeps insertion order: assigning to a key that is
    present replaces the value where it stands, a new key goes to the end. *)
Abbreviation dict V := (list (string * V)) (only parsing).

Section Dict.
Context {V : Type}.

Fixpoint dict_get (k : string) (d : dict V) : option V :=
  match d with
  | [] => None
  | (k', v') :: d' => if decide (k' = k) then Some v' else dict_get k d'
  end.

(** [d[k] = v] *)
Fixpoint dict_set (k : string) (v : V) (d : dict V) : dict V :=
  match d with
  | [] => [(k, v)]
  | (k', v') :: d' =>
      if decide (k' = k) then (k, v) :: d' else (k', v') :: dict_set k v d'
  end.

(** [d.pop(k, None)] *)
Fixpoint dict_pop (k : string) (d : dict V) : dict V :=
  match d with
  | [] => []
  | (k', v') :: d' =>
      if decide (k' = k) then d' else (k', v') :: dict_pop k d'
  end.

(** [d.values()] *)
Definition dict_values (d : dict V) : list V := d.*2.

(** Truthiness: a dict is true when it is not empty. *)
Definition dict_truthy (d : dict V) : bool :=
  match d with [] => false | _ => true end.

End Dict.

(** ** event.py: EventManager, without its dispatch loop *)

Module EventManager.

(** [self.event_handlers]: event type -> (callback name -> callback). *)
Record t := { event_handlers : gmap EventType (dict Callback) }.

(** [EventManager.__init__] *)
Definition __init__ : t := {| event_handlers := ∅ |}.

(** [dict.setdefault(key, default)]: the value now stored under [key] and
    the dict after the call. *)
Definition setdefault {V} (key : EventType) (default : V)
    (d : gmap EventType V) : V * gmap EventType V :=
  match d !! key with
  | Some v => (v, d)
  | None => (default, <[key := default]> d)
  end.

(** [add_event_handler]: [handlers] aliases the inner dict stored under
    [event_type], so the item assignment is written back there. *)
Definition add_event_handler (self : t) (event_type : EventType)
    (callback : Callback) : t :=
  let '(handlers, d) := setdefault event_type [] (event_handlers self) in
  {| event_handlers :=
       <[event_type := dict_set (__name__ callback) callback handlers]> d |}.

(** [remove_event_handler]: the walrus test is false for a missing event
    type and for an empty inner dict. *)
Definition remove_event_handler (self : t) (event_type : EventType)
    (callback : Callback) : t :=
  match event_handlers self !! event_type with
  | Some handlers =>
      if dict_truthy handlers
      then {| event_handlers :=
               <[event_type := dict_pop (__name__ callback) handlers]>
                 (event_handlers self) |}
      else self
  | None => self
  end.

(** The handler table of one event type as the dispatch loop reads it:
    [self.event_handlers.get(event.type)], where a missing entry and an
    empty dict both mean that nothing is called. *)
Definition handlers_of (self : t) (event_type : EventType) : dict Callback :=
  default [] (event_handlers self !! event_type).

(** A call of the mutation interface. *)
Inductive Op :=
| Add (event_type : EventType) (callback : Callback)
| Remove (event_type : EventType) (callback : Callback).

Definition step (self : t) (o : Op) : t :=
  match o with
  | Add ty c => add_event_handler self ty c
  | Remove ty c => remove_event_handler self ty c
  end.

Definition run_ops (ops : list Op) : t := foldl step __init__ ops.

End EventManager.

(** ** The registry as the specification words it

    Every event type has a set of named slots.  Adding a callback stores it
    under its declared name, overwriting a slot of the same name; removing
    deletes the slot of that name, and does nothing when there is none. *)
Module SpecRegistry.

Definition t : Type := EventType -> gmap string Callback.

Definition empty : t := fun _ => ∅.

Definition add_handler (r : t) (event_type : EventType) (callback : Callback) : t :=
  fun ty =>
    if decide (ty = event_type)
    then <[__name__ callback := callback]> (r ty)
    else r ty.

Definition remove_handler (r : t) (event_type : EventType) (callback : Callback) : t :=
  fun ty =>
    if decide (ty = event_type)
    then delete (__name__ callback) (r ty)
    else r ty.

Definition step (r : t) (o : EventManager.Op) : t :=
  match o with
  | EventManager.Add ty c => add_handler r ty c
  | EventManager.Remove ty c => remove_handler r ty c
  end.

Definition replay (ops : list EventManager.Op) : t := foldl step empty ops.

End SpecRegistry.

(** ** pygame.event.Event and UserEvent *)

Module Event.
(** [type] and the attribute bag [dict]. *)
Record t := { type : EventType; dict : gmap string PyVal }.
End Event.

Module UserEvent.
(** [self.event]; [self.type] and [self.dict] are read off it, and the
    name tag is the attribute ["pgf_name"] of the event. *)
Record t := { event : Event.t }.
Definition type (self : t) : EventType := Event.type (event self).
Definition dict (self : t) : gmap string PyVal := Event.dict (event self).
End UserEvent.

(** ** window.py: the objects *)

Module _WindowContext.

(** [self.window] is a reference to the window, [self.active] the
    run-state the loop tests. *)
Record t := { window : nat; active : bool }.

Definition __init__ (window : nat) : t :=
  {| window := window; active := false |}.

Definition set_active (b : bool) (self : t) : t :=
  {| window := window self; active := b |}.

End _WindowContext.

Module Window.

(** The instance attributes of a [Window].  [update_rate] is an
    [Optional[float]] that [__init__] assigns late: the outer [None] is an
    object that has no such attribute yet, [Some None] the attribute set to
    [None].  [__dict__] holds the handler attributes that were assigned on
    the instance ([window.on_draw = ...]); a handler that was never
    assigned is found on the class.  The flags, the clock and the
    antialiasing and vsync switches only parameterise the rendering backend
    and are left out. *)
Record t := {
  height : Z;
  width : Z;
  _screen : option (Z * Z);
  _background_color : Color;
  event_manager : EventManager.t;
  active : bool;
  _ctx : _WindowContext.t;
  update_rate : option (option Q);
  __dict__ : gmap string Callback
}.

Definition set_event_manager (em : EventManager.t) (w : t) : t :=
  {| height := height w; width := width w; _screen := _screen w;
     _background_color := _background_color w; event_manager := em;
     active := active w; _ctx := _ctx w; update_rate := update_rate w;
     __dict__ := __dict__ w |}.

Definition set__dict__ (d : gmap string Callback) (w : t) : t :=
  {| height := height w; width := width w; _screen := _screen w;
     _background_color := _background_color w;
     event_manager := event_manager w;
     active := active w; _ctx := _ctx w; update_rate := update_rate w;
     __dict__ := d |}.

Definition set__ctx (c : _WindowContext.t) (w : t) : t :=
  {| height := height w; width := width w; _screen := _screen w;
     _background_color := _background_color w;
     event_manager := event_manager w;
     active := active w; _ctx := c; update_rate := update_rate w;
     __dict__ := __dict__ w |}.

Definition set__screen (s : option (Z * Z)) (w : t) : t :=
  {| height := height w; width := width w; _screen := s;
     _background_color := _background_color w;
     event_manager := event_manager w;
     active := active w; _ctx := _ctx w; update_rate := update_rate w;
     __dict__ := __dict__ w |}.

(** [self.update_rate = value] *)
Definition set_update_rate (value : option Q) (w : t) : t :=
  {| height := height w; width := width w; _screen := _screen w;
     _background_color := _background_color w;
     event_manager := event_manager w;
     active := active w; _ctx := _ctx w; update_rate := Some value;
     __dict__ := __dict__ w |}.

(** The [background_color] property: getter and setter. *)
Definition background_color (w : t) : Color := _background_color w.

Definition set_background_color (value : Color) (w : t) : t :=
  {| height := height w; width := width w; _screen := _screen w;
     _background_color := value; event_manager := event_manager w;
     active := active w; _ctx := _ctx w; update_rate := update_rate w;
     __dict__ := __dict__ w |}.

(** The [size] property. *)
Definition size (w : t) : Z * Z := (width w, height w).

(** The [__name__] of the function that class [Window] stores under an
    attribute name: the attribute of a private method is mangled, the name
    of its function is not. *)
Definition function_name (attr : string) : string :=
  if decide (attr = "_Window__on_mouse_motion") then "__on_mouse_motion"
  else attr.

(** [self.<attr>] for a method attribute: the instance dict first, then the
    class, which yields the method bound to [self]. *)
Definition getattr (self : nat) (w : t) (attr : string) : Callback :=
  default {| __self__ := WindowObj self; __name__ := function_name attr |}
          (__dict__ w !! attr).

(** [self.<attr> = c] *)
Definition setattr (attr : string) (c : Callback) (w : t) : t :=
  set__dict__ (<[attr := c]> (__dict__ w)) w.

(** The twelve registrations of [__register_events], in source order: the
    event type and the attribute read off [self]. *)
Definition registrations : list (EventType * string) :=
  [(QUIT, "close");
   (WINDOWFOCUSGAINED, "on_focus");
   (WINDOWFOCUSLOST, "on_blur");
   (KEYDOWN, "on_key_press");
   (KEYUP, "on_key_release");
   (WINDOWLEAVE, "on_mouse_leave");
   (WINDOWENTER, "on_mouse_enter");
   (MOUSEMOTION, "_Window__on_mouse_motion");
   (MOUSEBUTTONDOWN, "on_mouse_press");
   (MOUSEBUTTONUP, "on_mouse_release");
   (MOUSEWHEEL, "on_mouse_scroll");
   (WINDOWRESIZED, "on_resize")].

Definition __register_events (self : nat) (w : t) : t :=
  set_event_manager
    (foldl (fun em '(ty, attr) =>
              EventManager.add_event_handler em ty (getattr self w attr))
           (event_manager w) registrations)
    w.

(** The object as [__init__] has it just before [set_window(self)]. *)
Definition blank (self : nat) (width height : Z) : t :=
  {| height := height; width := width; _screen := None;
     _background_color := RGB 255 255 255;
     event_manager := EventManager.__init__;
     active := false;
     _ctx := _WindowContext.__init__ self;
     update_rate := None;
     __dict__ := ∅ |}.

End Window.

(** ** view.py: the object and its registration of callers *)

Module View.

(** A view is its identity, [self.window] and its class.  Of the class
    the code reads the functions stored under the handler attributes and
    their [__name__]: [__names__] lists the attributes whose function
    carries another name than the attribute, as it does when the class body
    binds the attribute to a function defined under another name, to a
    decorated function or to a lambda. *)
Record t := { id : nat; window : nat; __names__ : gmap string string }.

(** The [__name__] of the function that the class of the view stores under
    an attribute: a [def] in the class body gives the function the name of
    the attribute. *)
Definition function_name (self : t) (attr : string) : string :=
  default attr (__names__ self !! attr).

(** [self.<attr>] for a handler method or hook of the view: the function
    that the class stores under the attribute, bound to the view. *)
Definition method (self : t) (attr : string) : Callback :=
  {| __self__ := ViewObj (id self); __name__ := function_name self attr |}.

(** The attributes [__register_callers] assigns on the window, in source
    order. *)
Definition callers : list string :=
  ["on_draw"; "on_update"; "on_key_press"; "on_key_release";
   "on_mouse_leave"; "on_mouse_enter"; "on_mouse_press";
   "on_mouse_release"; "on_mouse_scroll"].

(** [__register_callers], as a change of the window object [self.window]. *)
Definition __register_callers (self : t) (w : Window.t) : Window.t :=
  Window.__register_events (window self)
    (foldl (fun w attr => Window.setattr attr (method self attr) w) w callers).

End View.

(** ** The process state *)

(** What the code asks of the rendering backend, in call order. *)
Inductive DisplayCall :=
| Fill (color : Color)
| Flip
| Tick (framerate : Q).

(** The module global [window_commands._window], the store of [Window]
    objects, and the state of the wrapped runtime that the code reads or
    writes: whether it is initialised, the caption, the repeating timers
    (event and interval in milliseconds, by event type), the pending event
    queue, the live pointer position and modifier mask, and the calls made
    to the display. *)
Record World := {
  _window : option nat;
  windows : gmap nat Window.t;
  pygame_initialized : bool;
  caption : string;
  timers : gmap EventType (Event.t * Z);
  event_queue : list Event.t;
  mouse_pos : Z * Z;
  key_mods : Z;
  display_calls : list DisplayCall
}.

Definition set__window (v : option nat) (w : World) : World :=
  {| _window := v; windows := windows w;
     pygame_initialized := pygame_initialized w; caption := caption w;
     timers := timers w; event_queue := event_queue w;
     mouse_pos := mouse_pos w; key_mods := key_mods w;
     display_calls := display_calls w |}.

Definition set_windows (v : gmap nat Window.t) (w : World) : World :=
  {| _window := _window w; windows := v;
     pygame_initialized := pygame_initialized w; caption := caption w;
     timers := timers w; event_queue := event_queue w;
     mouse_pos := mouse_pos w; key_mods := key_mods w;
     display_calls := display_calls w |}.

Definition set_pygame_initialized (v : bool) (w : World) : World :=
  {| _window := _window w; windows := windows w;
     pygame_initialized := v; caption := caption w;
     timers := timers w; event_queue := event_queue w;
     mouse_pos := mouse_pos w; key_mods := key_mods w;
     display_calls := display_calls w |}.

Definition set_caption_field (v : string) (w : World) : World :=
  {| _window := _window w; windows := windows w;
     pygame_initialized := pygame_initialized w; caption := v;
     timers := timers w; event_queue := event_queue w;
     mouse_pos := mouse_pos w; key_mods := key_mods w;
     display_calls := display_calls w |}.

Definition set_timers (v : gmap EventType (Event.t * Z)) (w : World) : World :=
  {| _window := _window w; windows := windows w;
     pygame_initialized := pygame_initialized w; caption := caption w;
     timers := v; event_queue := event_queue w;
     mouse_pos := mouse_pos w; key_mods := key_mods w;
     display_calls := display_calls w |}.

Definition set_event_queue (v : list Event.t) (w : World) : World :=
  {| _window := _window w; windows := windows w;
     pygame_initialized := pygame_initialized w; caption := caption w;
     timers := timers w; event_queue := v;
     mouse_pos := mouse_pos w; key_mods := key_mods w;
     display_calls := display_calls w |}.

Definition set_display_calls (v : list DisplayCall) (w : World) : World :=
  {| _window := _window w; windows := windows w;
     pygame_initialized := pygame_initialized w; caption := caption w;
     timers := timers w; event_queue := event_queue w;
     mouse_pos := mouse_pos w; key_mods := key_mods w;
     display_calls := v |}.

(** The state of a process that has imported the package ([pygame.init()]
    has run) and has built nothing yet. *)
Definition initial_world : World :=
  {| _window := None; windows := ∅; pygame_initialized := true;
     caption := "pygame window"; timers := ∅; event_queue := [];
     mouse_pos := (0, 0); key_mods := 0; display_calls := [] |}.

(** ** Computations that may raise

    [Undefined] has no Python meaning: the loop budget of the model ran
    out, or a reference points outside the store. *)
Inductive Outcome (A : Type) :=
| Returns (a : A) (w : World)
| Raises (e : Exn) (w : World)
| Undefined.
Arguments Returns {A} a w.
Arguments Raises {A} e w.
Arguments Undefined {A}.

Definition M (A : Type) : Type := World -> Outcome A.

#[global] Instance M_ret : MRet M := fun A a w => Returns a w.

#[global] Instance M_bind : MBind M := fun A B f m w =>
  match m w with
  | Returns a w' => f a w'
  | Raises e w' => Raises e w'
  | Undefined => Undefined
  end.

Definition raise {A} (e : Exn) : M A := fun w => Raises e w.

Definition get_world : M World := fun w => Returns w w.

Definition modify (f : World -> World) : M unit := fun w => Returns tt (f w).

(** Dereference a window. *)
Definition deref (r : nat) : M Window.t := fun w =>
  match windows w !! r with
  | Some win => Returns win w
  | None => Undefined
  end.

(** Mutate the window object behind a reference. *)
Definition update (r : nat) (f : Window.t -> Window.t) : M unit :=
  win ← deref r; modify (fun w => set_windows (<[r := f win]> (windows w)) w).

(** [for x in xs: body(x)] *)
Fixpoint for_each {A} (xs : list A) (body : A -> M unit) : M unit :=
  match xs with
  | [] => mret tt
  | x :: xs' => body x ;; for_each xs' body
  end.

(** The behaviour of the application's callables: the overrides of the
    handler methods and hooks of [View] and [Window] subclasses, and plain
    functions registered as handlers. *)
Definition UserCode : Type := Callback -> list PyVal -> M unit.

(** The number of arguments that the handlers and hooks of the base
    classes [Window] and [View] take after [self]. *)
Definition base_arities : list (string * nat) :=
  [("setup", 0%nat); ("on_draw", 0%nat); ("on_update", 0%nat);
   ("on_key_press", 2%nat); ("on_key_release", 2%nat);
   ("on_mouse_enter", 2%nat); ("on_mouse_leave", 2%nat);
   ("on_mouse_motion", 5%nat); ("on_mouse_drag", 6%nat);
   ("on_mouse_press", 4%nat); ("on_mouse_release", 4%nat);
   ("on_mouse_scroll", 4%nat); ("on_resize", 2%nat);
   ("on_focus", 1%nat); ("on_blur", 1%nat)].

(** The code of the base classes: every handler and hook is a method with
    an empty body, which can only fail on the number of its arguments.  A
    callable of another name is no method of the base classes; it stands
    for a function that takes what it is given and does nothing. *)
Definition base_classes : UserCode := fun c args =>
  match dict_get (__name__ c) base_arities with
  | Some arity =>
      if decide (length args = arity) then mret tt else raise TypeError
  | None => mret tt
  end.

(** ** The interface of the wrapped runtime

    What the calls into [pygame] do to the process state, as far as the
    code relies on it. *)
Module pygame.

(** [pygame.display.set_caption(title)]; the runtime takes a [str] and
    rejects [None]. *)
Definition set_caption (title : option string) : M unit :=
  match title with
  | Some s => modify (set_caption_field s)
  | None => raise TypeError
  end.

(** [pygame.quit()] *)
Definition quit : M unit := modify (set_pygame_initialized false).

(** The range of a C [int], which is what the runtime converts a delay
    to. *)
Definition INT_MIN : Z := - 2 ^ 31.
Definition INT_MAX : Z := 2 ^ 31 - 1.

(** [pygame.time.set_timer(event, millis)]: the conversion of [millis]
    raises [OverflowError] outside the range of a C [int], and the timers
    need the runtime to be initialised; otherwise the call replaces the
    timer of the event's type by one that posts [event] every [millis]
    milliseconds, and with [millis] at zero or below the timer is only
    removed. *)
Definition set_timer (event : Event.t) (millis : Z) : M unit :=
  if decide (INT_MIN <= millis <= INT_MAX) then
    w ← get_world;
    if pygame_initialized w then
      modify (fun w =>
        if decide (millis <= 0)
        then set_timers (delete (Event.type event) (timers w)) w
        else set_timers (<[Event.type event := (event, millis)]> (timers w)) w)
    else raise (PygameError "pygame is not initialized")
  else raise OverflowError.

(** [pygame.event.get()]: the pending events, which leave the queue. *)
Definition event_get : M (list Event.t) := fun w =>
  Returns (event_queue w) (set_event_queue [] w).

(** [pygame.event.post(event)] *)
Definition event_post (event : Event.t) : M unit :=
  modify (fun w => set_event_queue (event_queue w ++ [event])%list w).

Definition mouse_get_pos : M (Z * Z) := fun w => Returns (mouse_pos w) w.

Definition key_get_mods : M Z := fun w => Returns (key_mods w) w.

Definition display (c : DisplayCall) : M unit :=
  modify (fun w => set_display_calls (display_calls w ++ [c])%list w).

(** [pygame.display.set_mode(size, flags, vsync)]: the runtime refuses a
    negative width or height with [pygame.error]; otherwise it hands out
    the display surface, which is modelled by the size it was asked for. *)
Definition display_set_mode (size : Z * Z) : M (Z * Z) :=
  if decide (size.1 < 0 ∨ size.2 < 0)
  then raise (PygameError "Cannot set negative sized display mode")
  else mret size.

End pygame.

(** ** window_commands.py *)

Definition set_window (window : nat) : M unit :=
  modify (set__window (Some window)).

(** [get_window]: a [Window] object is always true, so [not _window] holds
    exactly when the global is [None]. *)
Definition get_window : M nat := fun w =>
  match _window w with
  | None => Raises (RuntimeError "No window is active.") w
  | Some window => Returns window w
  end.

Definition set_title (title : option string) : M unit :=
  pygame.set_caption title.

(** [exit]: [sys.exit()] raises [SystemExit]. *)
Definition exit : M unit :=
  pygame.quit ;; raise SystemExit.

(** ** window.py: Window.close *)

(** [self._ctx.active = False] and [self._ctx.active = True] on a window
    object. *)
Definition ctx_off (win : Window.t) : Window.t :=
  Window.set__ctx (_WindowContext.set_active false (Window._ctx win)) win.

Definition ctx_on (win : Window.t) : Window.t :=
  Window.set__ctx (_WindowContext.set_active true (Window._ctx win)) win.

Definition close (self : nat) : M unit :=
  update self ctx_off ;;
  exit.

(** [window_commands.close_window] *)
Definition close_window : M unit :=
  window ← get_window;
  close window ;;
  modify (set__window None).

(** [window_commands.set_background_color] *)
Definition set_background_color (color : Color) : M unit :=
  window ← get_window;
  update window (Window.set_background_color color).

(** ** _time.py *)

Definition schedule (event : Event.t) (ms : Z) : M unit :=
  if decide (ms <= 0)
  then raise (RuntimeError "`ms` should be a non-zero integer")
  else pygame.set_timer event ms.

Definition unschedule (event : Event.t) : M unit :=
  pygame.set_timer event 0.

(** ** event.py: UserEvent.schedule and unschedule *)

Definition UserEvent_schedule (self : UserEvent.t) (ms : Z) : M unit :=
  if decide (ms <= 0)
  then raise (RuntimeError "`ms` should be a non-zero integer")
  else pygame.set_timer (UserEvent.event self) ms.

Definition UserEvent_unschedule (self : UserEvent.t) : M unit :=
  pygame.set_timer (UserEvent.event self) 0.

(** ** window.py: Window.__init__ *)

(** A new object gets a reference that no object of the store has. *)
Definition allocate (win : nat -> Window.t) : M nat := fun w =>
  let self := fresh (dom (windows w)) in
  Returns self (set_windows (<[self := win self]> (windows w)) w).

(** The default of the [update_rate] argument, the literal
    [0.016666666666666666]. *)
Definition default_update_rate : Q :=
  Qmake 16666666666666666 1000000000000000000.

Definition Window__init__ (width height : Z) (title : option string)
    (update_rate : option Q) : M nat :=
  self ← allocate (fun self => Window.blank self width height);
  set_window self ;;
  set_title title ;;
  update self (Window.set_update_rate update_rate) ;;
  update self (Window.__register_events self) ;;
  mret self.

(** [window.open_window]: the title defaults to [None], the update rate is
    not passed on. *)
Definition open_window (width height : Z) (window_title : option string) : M nat :=
  Window__init__ width height window_title (Some default_update_rate).

(** ** window.py: the motion demultiplexer

    [call] is how the callable that the method picks is run. *)
Definition __on_mouse_motion (call : Callback -> list PyVal -> M unit)
    (self : nat) (x y dx dy buttons modifiers : PyVal) : M unit :=
  win ← deref self;
  if decide (buttons = VTuple [0; 0; 0])
  then call (Window.getattr self win "on_mouse_motion") [x; y; dx; dy; modifiers]
  else call (Window.getattr self win "on_mouse_drag")
            [x; y; dx; dy; buttons; modifiers].

(** ** Calling a callable

    The methods that class [Window] itself implements run the code above;
    everything else is the application's.  [depth] is the interpreter's
    recursion limit. *)
Fixpoint invoke (code : UserCode) (depth : nat) (c : Callback)
    (args : list PyVal) : M unit :=
  match depth with
  | O => raise RecursionError
  | S depth' =>
      match __self__ c with
      | WindowObj self =>
          if decide (__name__ c = "close") then
            match args with
            | [] | [_] => close self
            | _ => raise TypeError
            end
          else if decide (__name__ c = "__on_mouse_motion") then
            match args with
            | [x; y; dx; dy; buttons; modifiers] =>
                __on_mouse_motion (invoke code depth') self
                                  x y dx dy buttons modifiers
            | _ => raise TypeError
            end
          else code c args
      | _ => code c args
      end
  end.

(** ** event.py: EventManager.handle_events *)

(** [e.<name>] on an event. *)
Definition event_attr (e : Event.t) (name : string) : M PyVal :=
  match Event.dict e !! name with
  | Some v => mret v
  | None => raise (AttributeError name)
  end.

(** [*v] in a tuple display: a tuple gives its items, a string its
    characters, anything else is not iterable. *)
Definition unpack (v : PyVal) : M (list PyVal) :=
  match v with
  | VTuple l => mret (VInt <$> l)
  | VStr s =>
      mret ((fun c => VStr (String c EmptyString)) <$> String.list_ascii_of_string s)
  | VInt _ | VNone => raise TypeError
  end.

(** [event_mapping.get(event.type, lambda e: ())(event)]: the argument
    tuple a handler of the event's type is called with. *)
Definition event_mapping (e : Event.t) : M (list PyVal) :=
  match Event.type e with
  | KEYUP | KEYDOWN =>
      key ← event_attr e "key"; mod_ ← event_attr e "mod";
      mret [key; mod_]
  | WINDOWENTER | WINDOWLEAVE =>
      p ← pygame.mouse_get_pos; mret [VInt p.1; VInt p.2]
  | MOUSEMOTION =>
      pos ← event_attr e "pos"; xy ← unpack pos;
      rel ← event_attr e "rel"; dxdy ← unpack rel;
      buttons ← event_attr e "buttons";
      mods ← pygame.key_get_mods;
      mret (xy ++ dxdy ++ [buttons; VInt mods])%list
  | MOUSEBUTTONUP | MOUSEBUTTONDOWN =>
      pos ← event_attr e "pos"; xy ← unpack pos;
      button ← event_attr e "button";
      mods ← pygame.key_get_mods;
      mret (xy ++ [button; VInt mods])%list
  | MOUSEWHEEL =>
      p ← pygame.mouse_get_pos;
      x ← event_attr e "x"; y ← event_attr e "y";
      mret [VInt p.1; VInt p.2; x; y]
  | WINDOWRESIZED =>
      x ← event_attr e "x"; y ← event_attr e "y";
      mret [x; y]
  | _ => mret []
  end.

(** The handler table of the event manager of window [self], now. *)
Definition current_handlers (self : nat) (ty : EventType) : M (dict Callback) :=
  win ← deref self;
  mret (EventManager.handlers_of (Window.event_manager win) ty).

(** The loop over [handlers.values()] that calls every callback with the
    unpacked argument tuple.  The iterator
    looks at the dict as it is now: it raises when the size has changed
    since the loop began ([used]) and otherwise yields the value at its
    position [i]; [n] counts the values still to come.  The package
    changes a table only in place, so the dict that the iterator holds is
    the one the table of the manager shows.  The iterator's second check,
    on the entry table behind the dict, is not modelled: the definition
    follows the loop for handlers that leave the keys of the table and
    their order alone or change the size of the table. *)
Fixpoint for_values (call : Callback -> list PyVal -> M unit) (self : nat)
    (e : Event.t) (used : nat) (n : nat) (i : nat) : M unit :=
  handlers ← current_handlers self (Event.type e);
  if decide (length handlers = used) then
    match n with
    | O => mret tt
    | S n' =>
        match dict_values handlers !! i with
        | Some callback =>
            args ← event_mapping e;
            call callback args ;;
            for_values call self e used n' (S i)
        | None => mret tt
        end
    end
  else raise (RuntimeError "dictionary changed size during iteration").

(** The body of the loop over the pending events. *)
Definition dispatch (call : Callback -> list PyVal -> M unit) (self : nat)
    (e : Event.t) : M unit :=
  handlers ← current_handlers self (Event.type e);
  if dict_truthy handlers
  then for_values call self e (length handlers) (length handlers) 0
  else mret tt.

(** [handle_events] of the event manager of window [self]. *)
Definition handle_events (call : Callback -> list PyVal -> M unit)
    (self : nat) : M unit :=
  events ← pygame.event_get;
  for_each events (dispatch call self).

(** ** window.py: Window.clear, the run context and Window.run *)

(** [clear()] with no colour given. *)
Definition clear (self : nat) : M unit :=
  win ← deref self;
  match Window._screen win with
  | Some _ => pygame.display (Fill (Window.background_color win))
  | None => raise (AttributeError "fill")
  end.

(** [_WindowContext.__enter__] on the context of window [self]. *)
Definition __enter__ (self : nat) : M unit :=
  update self ctx_on.

(** [_WindowContext.__exit__]; [exc] is the exception that left the block,
    if one did.  The result tells whether the exception is swallowed. *)
Definition __exit__ (self : nat) (exc : option Exn) : M bool :=
  match exc with
  | Some _ => mret false
  | None =>
      update self ctx_off ;;
      win ← deref self;
      close (_WindowContext.window (Window._ctx win)) ;;
      mret true
  end.

(** [with self._ctx as runner: block] *)
Definition guarded (self : nat) (block : M unit) : M unit := fun w =>
  match block w with
  | Returns _ w' => (__exit__ self None ;; mret tt) w'
  | Raises e w' =>
      match __exit__ self (Some e) w' with
      | Returns true w'' => Returns tt w''
      | Returns false w'' => Raises e w''
      | Raises e' w'' => Raises e' w''
      | Undefined => Undefined
      end
  | Undefined => Undefined
  end.

Definition with_ctx (self : nat) (block : M unit) : M unit :=
  __enter__ self ;; guarded self block.

(** [1 / self.update_rate], the argument of [self._clock.tick]: the
    attribute is read off the object, [None] cannot be divided by and a
    zero raises. *)
Definition framerate (self : nat) : M Q :=
  win ← deref self;
  match Window.update_rate win with
  | None => raise (AttributeError "update_rate")
  | Some None => raise TypeError
  | Some (Some rate) =>
      if decide (Qnum rate = 0) then raise ZeroDivisionError
      else mret (Qdiv 1 rate)
  end.

(** One turn of the loop of [run]. *)
Definition loop_body (code : UserCode) (depth : nat) (self : nat) : M unit :=
  handle_events (invoke code depth) self ;;
  clear self ;;
  (win ← deref self; invoke code depth (Window.getattr self win "on_update") []) ;;
  (win ← deref self; invoke code depth (Window.getattr self win "on_draw") []) ;;
  pygame.display Flip ;;
  (fps ← framerate self; pygame.display (Tick fps)).

(** [while runner.active: ...], with a budget of [fuel] turns. *)
Fixpoint while_active (code : UserCode) (depth : nat) (fuel : nat)
    (self : nat) : M unit :=
  win ← deref self;
  if _WindowContext.active (Window._ctx win) then
    match fuel with
    | O => (fun _ => Undefined) : M unit
    | S fuel' =>
        loop_body code depth self ;; while_active code depth fuel' self
    end
  else mret tt.

(** [run]: the surface comes from the runtime, which may refuse it, before
    the context is entered. *)
Definition Window_run (code : UserCode) (depth : nat) (fuel : nat)
    (self : nat) : M unit :=
  win ← deref self;
  surface ← pygame.display_set_mode (Window.size win);
  update self (Window.set__screen (Some surface)) ;;
  with_ctx self (while_active code depth fuel self).

(** ** view.py: View.__init__, show and run *)

(** [View.__init__]: [id] is the identity of the new object and [names]
    comes with its class. *)
Definition View__init__ (id : nat) (names : gmap string string)
    (window : nat) : M View.t :=
  let self := {| View.id := id; View.window := window;
                 View.__names__ := names |} in
  update window (View.__register_callers self) ;;
  mret self.

Definition show (code : UserCode) (self : View.t) : M unit :=
  update (View.window self) (View.__register_callers self) ;;
  code (View.method self "setup") [].


(** ** The vocabulary of the statements *)

(** The invariant of a manager that was only touched through its two
    methods: in every table the key of a slot is the name of its callback
    and no key occurs twice. *)
Definition well_keyed (d : dict Callback) : Prop :=
  d.*1 = __name__ <$> dict_values d ∧ NoDup d.*1.

(** The world that [close] leaves: the run-state of the window is off and
    the runtime is shut down. *)
Definition closed (self : nat) (win : Window.t) (w : World) : World :=
  set_pygame_initialized false
    (set_windows (<[self := ctx_off win]> (windows w)) w).

(** A custom event, as [UserEvent(name="tick")] builds the first one. *)
Definition tick_event : UserEvent.t :=
  {| UserEvent.event :=
       {| Event.type := USEREVENT 1;
          Event.dict := {["pgf_name" := VStr "tick"]} |} |}.

(** The attribute that [__register_events] reads for an event type. *)
Definition registered (ty : EventType) : option string :=
  match ty with
  | QUIT => Some "close"
  | WINDOWFOCUSGAINED => Some "on_focus"
  | WINDOWFOCUSLOST => Some "on_blur"
  | KEYDOWN => Some "on_key_press"
  | KEYUP => Some "on_key_release"
  | WINDOWLEAVE => Some "on_mouse_leave"
  | WINDOWENTER => Some "on_mouse_enter"
  | MOUSEMOTION => Some "_Window__on_mouse_motion"
  | MOUSEBUTTONDOWN => Some "on_mouse_press"
  | MOUSEBUTTONUP => Some "on_mouse_release"
  | MOUSEWHEEL => Some "on_mouse_scroll"
  | WINDOWRESIZED => Some "on_resize"
  | USEREVENT _ => None
  end.

(** The instance dict after the assignments of [__register_callers]. *)
Definition bind_callers (v : View.t) (d : gmap string Callback) :
    gmap string Callback :=
  foldl (fun d attr => <[attr := View.method v attr]> d) d View.callers.

(** [self.<attr>] read off an instance dict. *)
Definition attr_of (self : nat) (d : gmap string Callback) (attr : string) :
    Callback :=
  default {| __self__ := WindowObj self; __name__ := Window.function_name attr |}
          (d !! attr).

(** A computation keeps the bindings when it changes neither the event
    manager nor the handler attributes of any window.  The [setup] hooks of
    the views are meant to be such: they set a title or a background. *)
Definition keeps_bindings (m : M unit) : Prop :=
  forall w w' r, m w = Returns tt w' ->
    (Window.event_manager <$> windows w' !! r)
      = (Window.event_manager <$> windows w !! r)
    ∧ (Window.__dict__ <$> windows w' !! r)
      = (Window.__dict__ <$> windows w !! r).

Definition setup_keeps_bindings (code : UserCode) (v : View.t) : Prop :=
  keeps_bindings (code (View.method v "setup") []).

(** The handlers of two views go by the same names: for every attribute
    that [__register_callers] assigns and [__register_events] registers,
    the functions that the two classes store under it have the same
    [__name__].  Two classes that define their handlers under the names of
    the attributes are such. *)
Definition same_names (A B : View.t) : Prop :=
  forall ty attr,
    (ty, attr) ∈ Window.registrations -> attr ∈ View.callers ->
    View.function_name A attr = View.function_name B attr.

(** ** view.py: the background colour of a view, and a program of two
    views

    The program has the shape of examples/changing views.py: two views on
    one window, each of which shows the other when the return key goes
    down, with a [setup] hook that sets a background and a caption.  It is
    not that file: it gives the window a title, where the example passes
    none to [open_window], and it sets the caption with
    [window_commands.set_title], where the example asks the package for a
    [set_title] that the package does not export. *)

(** The setter of the [background_color] property of a view. *)
Definition View_set_background_color (self : View.t) (value : Color) : M unit :=
  update (View.window self) (Window.set_background_color value).

(** [pygame.K_RETURN] *)
Definition K_RETURN : Z := 13.

(** The two views, both on the first window of the process; their classes
    define every handler under its own name. *)
Definition view1 : View.t :=
  {| View.id := 1; View.window := 0; View.__names__ := ∅ |}.
Definition view2 : View.t :=
  {| View.id := 2; View.window := 0; View.__names__ := ∅ |}.

(** A third view on that window, whose class binds [on_key_press] to a
    function that was defined as [handle_key]. *)
Definition aliased_view : View.t :=
  {| View.id := 3; View.window := 0;
     View.__names__ := {["on_key_press" := "handle_key"]} |}.

(** The [setup] hooks of the two classes. *)
Definition two_views_setup : UserCode := fun c _ =>
  if decide (c = View.method view1 "setup") then
    View_set_background_color view1 (Named "black") ;;
    set_title (Some "View 1")
  else if decide (c = View.method view2 "setup") then
    View_set_background_color view2 (Named "red") ;;
    set_title (Some "View 2")
  else mret tt.

(** The two classes: on the return key each view shows the other. *)
Definition two_views : UserCode := fun c args =>
  if decide (c = View.method view1 "on_key_press") then
    match args with
    | [symbol; _] =>
        if decide (symbol = VInt K_RETURN)
        then show two_views_setup view2 else mret tt
    | _ => raise TypeError
    end
  else if decide (c = View.method view2 "on_key_press") then
    match args with
    | [symbol; _] =>
        if decide (symbol = VInt K_RETURN)
        then show two_views_setup view1 else mret tt
    | _ => raise TypeError
    end
  else two_views_setup c args.

(** The state a computation leaves. *)
Definition after {A} (m : M A) (w : World) : World :=
  match m w with
  | Returns _ w' => w'
  | Raises _ w' => w'
  | Undefined => w
  end.

(** The program up to the first [run]: the window and the two views. *)
Definition two_views_main : M unit :=
  window ← Window__init__ 1000 650 (Some "PyGameFlow Window")
                          (Some default_update_rate);
  View__init__ 1 ∅ window ;;
  View__init__ 2 ∅ window ;;
  mret tt.

Definition two_views_world : World :=
  after two_views_main initial_world.

(** The return key goes down. *)
Definition return_key : Event.t :=
  {| Event.type := KEYDOWN;
     Event.dict := <["key" := VInt K_RETURN]> (<["mod" := VInt 0]> ∅) |}.

(** [self.__on_mouse_motion] as class [Window] provides it. *)
Definition demultiplexer (self : nat) : Callback :=
  {| __self__ := WindowObj self; __name__ := "__on_mouse_motion" |}.

(** Nobody assigned the motion attributes of the window: they are read
    from class [Window]. *)
Definition motion_untouched (win : Window.t) : Prop :=
  Window.__dict__ win !! "on_mouse_motion" = None
  ∧ Window.__dict__ win !! "on_mouse_drag" = None
  ∧ Window.__dict__ win !! "_Window__on_mouse_motion" = None.

(** A motion event at (10, 20) that moved by (1, -1), with the given
    state of the buttons. *)
Definition motion_event (buttons : list Z) : Event.t :=
  {| Event.type := MOUSEMOTION;
     Event.dict := <["pos" := VTuple [10; 20]]>
                     (<["rel" := VTuple [1; -1]]>
                        (<["buttons" := VTuple buttons]> ∅)) |}.

(** The window of the program, once both views are built. *)
Definition two_views_window : Window.t :=
  default (Window.blank 0 0 0) (windows two_views_world !! 0%nat).

(** The world in which the block of [run] starts: the surface is acquired
    and the context is entered. *)
Definition entered (self : nat) (win : Window.t) (w : World) : World :=
  set_windows
    (<[self := ctx_on (Window.set__screen (Some (Window.size win)) win)]>
       (windows w)) w.

(** A [Window] subclass whose [on_update] turns the run-state off, and one
    whose [on_draw] fails. *)
Definition stops_on_update : UserCode := fun c _ =>
  if decide (c = {| __self__ := WindowObj 0; __name__ := "on_update" |})
  then update 0 ctx_off else mret tt.

Definition fails_on_draw : UserCode := fun c _ =>
  if decide (c = {| __self__ := WindowObj 0; __name__ := "on_draw" |})
  then raise (UserError 7) else mret tt.

(** The world of a process that has built a window, then a view of the
    class with the renamed handler, then a view of the first class. *)
Definition aliased_views_world : World :=
  after (window ← Window__init__ 1000 650 (Some "PyGameFlow Window")
                                 (Some default_update_rate);
         View__init__ 3 {["on_key_press" := "handle_key"]} window ;;
         View__init__ 1 ∅ window ;;
         mret tt)
        initial_world.

(** The world of a process that has built one window. *)
Definition one_window_world : World :=
  after (Window__init__ 800 600 (Some "PyGameFlow Window")
                        (Some default_update_rate)) initial_world.

Definition one_window : Window.t :=
  default (Window.blank 0 0 0) (windows one_window_world !! 0%nat).

(** ** event.py: the custom event factory

    The class attribute [UserEvent._counter] is passed in and handed
    back. *)

Definition get_userevent_count (_counter : Z) : Z := _counter.

(** [create_new_userevent]; [_dict or {}] is the empty dict for [None]. *)
Definition create_new_userevent (_counter : Z)
    (_dict : option (gmap string PyVal)) : Z * Event.t :=
  let _counter := _counter + 1 in
  (_counter,
   {| Event.type := USEREVENT _counter; Event.dict := default ∅ _dict |}).

(** The value of the [name] argument. *)
Definition name_value (name : option string) : PyVal :=
  match name with
  | Some s => VStr s
  | None => VNone
  end.

(** [UserEvent.__init__]: [setattr(self.event, "pgf_name", name)] writes
    into the attribute bag of the event. *)
Definition UserEvent__init__ (_counter : Z) (name : option string)
    (_dict : option (gmap string PyVal)) : Z * UserEvent.t :=
  let '(_counter, event) := create_new_userevent _counter _dict in
  (_counter,
   {| UserEvent.event :=
        {| Event.type := Event.type event;
           Event.dict := <["pgf_name" := name_value name]> (Event.dict event) |} |}).

(** One [UserEvent(name, _dict)] after the other. *)
Fixpoint create_userevents (_counter : Z)
    (requests : list (option string * option (gmap string PyVal))) :
    Z * list UserEvent.t :=
  match requests with
  | [] => (_counter, [])
  | (name, _dict) :: rest =>
      let '(_counter, ue) := UserEvent__init__ _counter name _dict in
      let '(_counter, ues) := create_userevents _counter rest in
      (_counter, ue :: ues)
  end.

(** ** window.py: the antialiasing and vsync switches

    The module defines [__AA_ENABLED] and [__VSYNC_ENABLED], which the two
    queries return.  Inside class [Window] the same identifiers are private
    names: the [global] statement and the two assignments of [__init__]
    address the module globals [_Window__AA_ENABLED] and
    [_Window__VSYNC_ENABLED], which do not exist before. *)
Module window_globals.

Record t := {
  __AA_ENABLED : bool;
  __VSYNC_ENABLED : bool;
  _Window__AA_ENABLED : option bool;
  _Window__VSYNC_ENABLED : option bool
}.

(** The globals once the module is imported. *)
Definition at_import : t :=
  {| __AA_ENABLED := false; __VSYNC_ENABLED := false;
     _Window__AA_ENABLED := None; _Window__VSYNC_ENABLED := None |}.

Definition is_aa_enabled (g : t) : bool := __AA_ENABLED g.

Definition is_vsync_enabled (g : t) : bool := __VSYNC_ENABLED g.

(** The part of [Window.__init__] that assigns the switches. *)
Definition assign_switches (antialiasing vsync : bool) (g : t) : t :=
  {| __AA_ENABLED := __AA_ENABLED g; __VSYNC_ENABLED := __VSYNC_ENABLED g;
     _Window__AA_ENABLED := Some antialiasing;
     _Window__VSYNC_ENABLED := Some vsync |}.

End window_globals.

(** ** view.py: the [background_color] and [size] properties *)

Definition View_background_color (self : View.t) : M Color :=
  win ← deref (View.window self); mret (Window.background_color win).

Definition View_size (self : View.t) : M (Z * Z) :=
  win ← deref (View.window self); mret (Window.width win, Window.height win).

(** ** More vocabulary *)

(** A way of running callables that leaves the store of windows alone,
    whether the callable returns or raises. *)
Definition keeps_windows (call : Callback -> list PyVal -> M unit) : Prop :=
  forall c args w,
    match call c args w with
    | Returns _ w' | Raises _ w' => windows w' = windows w
    | Undefined => True
    end.

(** Every handler in the table of the event's type, in the order of the
    table, called with the arguments of the event. *)
Definition call_handlers (call : Callback -> list PyVal -> M unit)
    (win : Window.t) (e : Event.t) : M unit :=
  for_each
    (dict_values (EventManager.handlers_of (Window.event_manager win)
                                           (Event.type e)))
    (fun callback => args ← event_mapping e; call callback args).

(** The [on_update] and [on_draw] attributes hold callables of those
    names, as they do on a new window and after any activation. *)
Definition frame_hooks_named (self : nat) (win : Window.t) : Prop :=
  __name__ (Window.getattr self win "on_update") = "on_update"
  ∧ __name__ (Window.getattr self win "on_draw") = "on_draw".

(** The window can run a frame: its surface is there and its context is
    on. *)
Definition running (win : Window.t) : Prop :=
  is_Some (Window._screen win)
  ∧ _WindowContext.active (Window._ctx win) = true.

(** The callback [self.close] of a window. *)
Definition close_callback (self : nat) : Callback :=
  {| __self__ := WindowObj self; __name__ := "close" |}.

(** [window.event_manager.add_event_handler(event_type, callback)] *)
Definition Window_add_event_handler (self : nat) (event_type : EventType)
    (callback : Callback) : M unit :=
  update self (fun win =>
    Window.set_event_manager
      (EventManager.add_event_handler (Window.event_manager win)
                                      event_type callback) win).

(** Two plain functions; when the first is called it registers the second
    for the first custom event type on the first window. *)
Definition first_function : Callback :=
  {| __self__ := Function 1; __name__ := "first" |}.

Definition second_function : Callback :=
  {| __self__ := Function 2; __name__ := "second" |}.

Definition registers_second : UserCode := fun c _ =>
  if decide (c = first_function)
  then Window_add_event_handler 0 (USEREVENT 1) second_function
  else mret tt.

(** A way of running callables that only writes down what it is asked to
    run: it posts an event that names the callable and carries the number
    of arguments. *)
Definition recorder : Callback -> list PyVal -> M unit := fun c args =>
  pygame.event_post
    {| Event.type := USEREVENT (Z.of_nat (length args));
       Event.dict := {["called" := VStr (__name__ c)]} |}.

(** A computation that leaves the store of windows alone. *)
Definition frames_windows (m : M unit) : Prop :=
  forall w,
    match m w with
    | Returns _ w' | Raises _ w' => windows w' = windows w
    | Undefined => True
    end.

(** The window is asked to close. *)
Definition quit_event : Event.t := {| Event.type := QUIT; Event.dict := ∅ |}.

(** The window gains the focus. *)
Definition focus_event : Event.t :=
  {| Event.type := WINDOWFOCUSGAINED; Event.dict := ∅ |}.

(** The world of a process that has built one window with an update rate
    of zero and has acquired its surface. *)
Definition still_window_world : World :=
  after (update 0 (Window.set__screen (Some (800, 600))))
        (after (Window__init__ 800 600 (Some "PyGameFlow Window")
                               (Some (Qmake 0 1)))
               initial_world).

(** * Properties *)

(** Membership in a list that is written out. *)
Ltac in_list := apply list_elem_of_In; simpl; tauto.

(** ** Ordered dictionaries against finite maps *)

Section DictFacts.
Context {V : Type}.
Implicit Types (d : dict V) (k : string) (v : V).

Lemma dict_set_to_map k v d :
  list_to_map (dict_set k v d) =@{gmap string V} <[k := v]> (list_to_map d).
Proof.
  induction d as [|[k' v'] d IH]; csimpl; [done|].
  case_decide as Hk; csimpl.
  - subst k'. by rewrite insert_insert_eq.
  - rewrite IH. by apply insert_insert_ne.
Qed.

Lemma dict_set_keys k v d :
  (dict_set k v d).*1 = if decide (k ∈ d.*1) then d.*1 else (d.*1 ++ [k])%list.
Proof.
  induction d as [|[k' v'] d IH]; csimpl.
  - done.
  - destruct (decide (k' = k)) as [->|Hk]; csimpl.
    + rewrite decide_True; [done|]. apply list_elem_of_here.
    + rewrite IH. destruct (decide (k ∈ d.*1)) as [Hin|Hin].
      * rewrite decide_True; [done|]. by apply list_elem_of_further.
      * rewrite decide_False; [done|].
        intros [?|?]%elem_of_cons; congruence.
Qed.

Lemma dict_set_NoDup k v d : NoDup d.*1 -> NoDup (dict_set k v d).*1.
Proof.
  intros Hd. rewrite dict_set_keys. case_decide as Hin; [done|].
  apply NoDup_app. split_and!; [done| |apply NoDup_singleton].
  intros x Hx ->%list_elem_of_singleton. done.
Qed.

Lemma dict_pop_keys_sub k d x : x ∈ (dict_pop k d).*1 -> x ∈ d.*1.
Proof.
  induction d as [|[k' v'] d IH]; csimpl; [done|].
  case_decide; csimpl.
  - apply list_elem_of_further.
  - intros [->|?]%elem_of_cons; [apply list_elem_of_here|].
    apply list_elem_of_further; auto.
Qed.

Lemma dict_pop_NoDup k d : NoDup d.*1 -> NoDup (dict_pop k d).*1.
Proof.
  induction d as [|[k' v'] d IH]; csimpl; [done|].
  intros [Hk' Hd]%NoDup_cons. case_decide; csimpl; [done|].
  apply NoDup_cons. split; [|auto].
  intros ?%dict_pop_keys_sub. done.
Qed.

Lemma dict_pop_to_map k d :
  NoDup d.*1 ->
  list_to_map (dict_pop k d) =@{gmap string V} delete k (list_to_map d).
Proof.
  induction d as [|[k' v'] d IH]; csimpl.
  - intros _. by rewrite delete_empty.
  - intros [Hk' Hd]%NoDup_cons. case_decide as Hk; csimpl.
    + subst k'. rewrite delete_insert_eq. symmetry. apply delete_id.
      by apply not_elem_of_list_to_map_1.
    + rewrite IH by done. symmetry. by apply delete_insert_ne.
Qed.

Lemma dict_get_to_map k d :
  dict_get k d = (list_to_map d : gmap string V) !! k.
Proof.
  induction d as [|[k' v'] d IH]; csimpl; [done|].
  case_decide as Hk.
  - subst k'. by rewrite lookup_insert_eq.
  - by rewrite lookup_insert_ne.
Qed.

Lemma dict_set_elem k v d x :
  x ∈ dict_set k v d -> x = (k, v) ∨ x ∈ d.
Proof.
  induction d as [|[k' v'] d IH]; csimpl.
  - intros ->%list_elem_of_singleton. by left.
  - case_decide.
    + intros [->|?]%elem_of_cons; [by left|].
      right. by apply list_elem_of_further.
    + intros [->|Hx]%elem_of_cons; [right; apply list_elem_of_here|].
      destruct (IH Hx) as [->|?]; [by left|].
      right. by apply list_elem_of_further.
Qed.

Lemma dict_pop_elem k d x : x ∈ dict_pop k d -> x ∈ d.
Proof.
  induction d as [|[k' v'] d IH]; csimpl; [done|].
  case_decide.
  - apply list_elem_of_further.
  - intros [->|?]%elem_of_cons; [apply list_elem_of_here|].
    apply list_elem_of_further; auto.
Qed.

(** Assigning the value a key already has changes nothing. *)
Lemma dict_set_same k v d : dict_get k d = Some v -> dict_set k v d = d.
Proof.
  induction d as [|[k' v'] d IH]; csimpl; [done|].
  case_decide as Hk.
  - intros [= ->]. by subst.
  - intros Hg. by rewrite IH.
Qed.

(** Assigning twice under the same key keeps only the last value, where
    the first was put. *)
Lemma dict_set_set k v v' d :
  dict_set k v (dict_set k v' d) = dict_set k v d.
Proof.
  induction d as [|[k1 v1] d IH]; csimpl.
  - by rewrite decide_True.
  - case_decide as Hk; csimpl.
    + by rewrite decide_True.
    + rewrite decide_False by done. by rewrite IH.
Qed.

Lemma dict_get_set k k' v d :
  dict_get k' (dict_set k v d) =
  if decide (k = k') then Some v else dict_get k' d.
Proof.
  rewrite !dict_get_to_map, dict_set_to_map. apply lookup_insert.
Qed.

End DictFacts.

(** ** EventManager: what one call does to the table of each event type *)

Lemma handlers_of_add em ty c ty' :
  EventManager.handlers_of (EventManager.add_event_handler em ty c) ty' =
  if decide (ty' = ty)
  then dict_set (__name__ c) c (EventManager.handlers_of em ty)
  else EventManager.handlers_of em ty'.
Proof.
  unfold EventManager.handlers_of, EventManager.add_event_handler,
    EventManager.setdefault.
  destruct (EventManager.event_handlers em !! ty) as [h|] eqn:Hty;
    rewrite ?Hty; simpl.
  - case_decide as Hd.
    + subst ty'. by rewrite lookup_insert_eq.
    + by rewrite lookup_insert_ne.
  - case_decide as Hd.
    + subst ty'. by rewrite lookup_insert_eq.
    + by rewrite !lookup_insert_ne.
Qed.

Lemma handlers_of_remove em ty c ty' :
  EventManager.handlers_of (EventManager.remove_event_handler em ty c) ty' =
  if decide (ty' = ty)
  then dict_pop (__name__ c) (EventManager.handlers_of em ty)
  else EventManager.handlers_of em ty'.
Proof.
  unfold EventManager.handlers_of, EventManager.remove_event_handler.
  destruct (EventManager.event_handlers em !! ty) as [h|] eqn:Hty; simpl.
  - destruct h as [|s h]; simpl.
    + case_decide as Hd; [subst ty'; by rewrite Hty|done].
    + case_decide as Hd.
      * subst ty'. by rewrite lookup_insert_eq.
      * by rewrite lookup_insert_ne.
  - case_decide as Hd; [subst ty'; by rewrite Hty|done].
Qed.

(** Removing a handler from an event type that has no table, or a handler
    whose name has no slot, leaves the manager as it was. *)
Lemma remove_absent em ty c :
  dict_get (__name__ c) (EventManager.handlers_of em ty) = None ->
  EventManager.remove_event_handler em ty c = em.
Proof.
  unfold EventManager.handlers_of, EventManager.remove_event_handler.
  destruct em as [m]; simpl.
  destruct (m !! ty) as [h|] eqn:Hty; simpl; [|done].
  intros Hget. destruct (dict_truthy h); [|done]. f_equal.
  apply insert_id. rewrite Hty. f_equal.
  clear Hty. induction h as [|[k v] h IH]; simpl in *; [done|].
  case_decide; [done|]. by rewrite <-IH.
Qed.

Lemma well_keyed_set c d : well_keyed d -> well_keyed (dict_set (__name__ c) c d).
Proof.
  intros [Hk Hn]. split; [|by apply dict_set_NoDup].
  clear Hn. unfold dict_values in *.
  induction d as [|[k v] d IH]; csimpl in *; [done|].
  injection Hk as Hk1 Hk2. case_decide; csimpl.
  - by rewrite Hk2.
  - by rewrite IH, <-Hk1.
Qed.

Lemma well_keyed_get n c d :
  well_keyed d -> dict_get n d = Some c -> n = __name__ c.
Proof.
  intros [Hk _]. unfold dict_values in Hk.
  induction d as [|[k v] d IH]; csimpl in *; [done|].
  injection Hk as Hk1 Hk2. case_decide.
  - intros [= <-]. congruence.
  - by apply IH.
Qed.

Lemma well_keyed_pop n d : well_keyed d -> well_keyed (dict_pop n d).
Proof.
  intros [Hk Hn]. split; [|by apply dict_pop_NoDup].
  clear Hn. unfold dict_values in *.
  induction d as [|[k v] d IH]; csimpl in *; [done|].
  injection Hk as Hk1 Hk2. case_decide; csimpl; [done|].
  by rewrite IH, <-Hk1.
Qed.

Lemma well_keyed_step em o :
  (forall ty, well_keyed (EventManager.handlers_of em ty)) ->
  forall ty, well_keyed (EventManager.handlers_of (EventManager.step em o) ty).
Proof.
  intros Hem ty. destruct o as [ty0 c|ty0 c]; simpl.
  - rewrite handlers_of_add. case_decide; [|done]. by apply well_keyed_set.
  - rewrite handlers_of_remove. case_decide; [|done]. by apply well_keyed_pop.
Qed.

Lemma well_keyed_run_ops ops ty :
  well_keyed (EventManager.handlers_of (EventManager.run_ops ops) ty).
Proof.
  revert ty. unfold EventManager.run_ops.
  induction ops as [|o ops IH] using rev_ind; intros ty.
  - simpl. unfold EventManager.handlers_of. simpl. rewrite lookup_empty.
    split; [done|apply NoDup_nil_2].
  - rewrite foldl_snoc. by apply well_keyed_step.
Qed.

(** C2 — For every finite sequence of [add_event_handler] and
    [remove_event_handler] calls on a fresh [EventManager], the table of
    each event type, read as a map from names to callbacks, is the one the
    specification's replay gives (a callback is stored under its declared
    name and overwrites the slot of that name; removing what is absent does
    nothing); every slot is keyed by the name of its callback and no name
    has two slots, so an event type holds at most one callback per name. *)
Theorem registry_replay (ops : list EventManager.Op) (ty : EventType) :
  let handlers := EventManager.handlers_of (EventManager.run_ops ops) ty in
  list_to_map handlers = SpecRegistry.replay ops ty
  ∧ handlers.*1 = __name__ <$> dict_values handlers
  ∧ NoDup (__name__ <$> dict_values handlers).
Proof.
  simpl. destruct (well_keyed_run_ops ops ty) as [Hk Hn].
  split_and!; [|done|by rewrite <-Hk].
  clear Hk Hn. revert ty.
  unfold EventManager.run_ops, SpecRegistry.replay.
  induction ops as [|o ops IH] using rev_ind; intros ty.
  - simpl. unfold EventManager.handlers_of. simpl. by rewrite lookup_empty.
  - rewrite !foldl_snoc.
    destruct o as [ty0 c|ty0 c]; simpl.
    + rewrite handlers_of_add.
      unfold SpecRegistry.add_handler. case_decide; [subst ty0|apply IH].
      by rewrite dict_set_to_map, IH.
    + rewrite handlers_of_remove.
      unfold SpecRegistry.remove_handler. case_decide; [subst ty0|apply IH].
      rewrite dict_pop_to_map, IH; [done|].
      apply (well_keyed_run_ops ops ty).
Qed.

(** ** Running computations *)

Lemma bind_returns {A B} (m : M A) (f : A -> M B) w a w' :
  m w = Returns a w' -> (m ≫= f) w = f a w'.
Proof. unfold mbind, M_bind. by intros ->. Qed.

Lemma bind_raises {A B} (m : M A) (f : A -> M B) w e w' :
  m w = Raises e w' -> (m ≫= f) w = Raises e w'.
Proof. unfold mbind, M_bind. by intros ->. Qed.

Lemma bind_undefined {A B} (m : M A) (f : A -> M B) w :
  m w = Undefined -> (m ≫= f) w = Undefined.
Proof. unfold mbind, M_bind. by intros ->. Qed.

Lemma deref_eq r w win :
  windows w !! r = Some win -> deref r w = Returns win w.
Proof. unfold deref. by intros ->. Qed.

Lemma update_eq r f w win :
  windows w !! r = Some win ->
  update r f w = Returns tt (set_windows (<[r := f win]> (windows w)) w).
Proof.
  intros Hr. unfold update. by rewrite (bind_returns _ _ _ _ _ (deref_eq _ _ _ Hr)).
Qed.

Lemma exit_eq w : exit w = Raises SystemExit (set_pygame_initialized false w).
Proof. reflexivity. Qed.

Lemma close_eq self win w :
  windows w !! self = Some win ->
  close self w = Raises SystemExit (closed self win w).
Proof.
  intros Hr. unfold close.
  by rewrite (bind_returns _ _ _ _ _ (update_eq _ _ _ _ Hr)).
Qed.

Lemma close_not_returns self w u w' : close self w ≠ Returns u w'.
Proof.
  unfold close, update, deref, mbind, M_bind.
  destruct (windows w !! self); simpl; discriminate.
Qed.

(** ** window_commands: the active window *)

(** What [Window.__init__] does when the title is a string. *)
Lemma Window__init__eq width height title update_rate w :
  let self := fresh (dom (windows w)) in
  Window__init__ width height (Some title) update_rate w =
  Returns self
    (set_windows
       (<[self := Window.__register_events self
                    (Window.set_update_rate update_rate
                       (Window.blank self width height))]>
          (windows w))
       (set_caption_field title (set__window (Some self) w))).
Proof.
  simpl. unfold Window__init__.
  erewrite bind_returns by reflexivity.
  erewrite bind_returns by reflexivity.
  erewrite bind_returns by reflexivity.
  erewrite bind_returns by (apply update_eq; simpl; apply lookup_insert_eq).
  erewrite bind_returns by (apply update_eq; simpl; apply lookup_insert_eq).
  unfold mret, M_ret, set_windows; simpl. by rewrite !insert_insert_eq.
Qed.

(** C6 — Asking for the active window before any [Window] was built raises
    the [RuntimeError] "No window is active."; once a [Window] has been
    built, [get_window] returns the reference to that very object, which is
    an object the store did not have before.  Building a window with a
    string title always succeeds. *)
Theorem get_window_after_construction :
  get_window initial_world =
    Raises (RuntimeError "No window is active.") initial_world
  ∧ (forall w, _window w = None ->
       get_window w = Raises (RuntimeError "No window is active.") w)
  ∧ (forall width height title update_rate w self w',
       Window__init__ width height title update_rate w = Returns self w' ->
       get_window w' = Returns self w' ∧ windows w !! self = None
       ∧ is_Some (windows w' !! self))
  ∧ (forall width height title update_rate w,
       exists self w',
         Window__init__ width height (Some title) update_rate w
           = Returns self w').
Proof.
  split_and!.
  - reflexivity.
  - intros w Hw. unfold get_window. by rewrite Hw.
  - intros width height [title|] update_rate w self w'.
    + rewrite Window__init__eq. intros [= <- <-]. split_and!.
      * reflexivity.
      * apply not_elem_of_dom, is_fresh.
      * simpl. rewrite lookup_insert_eq. by eexists.
    + unfold Window__init__, allocate, mbind, M_bind. simpl. discriminate.
  - intros width height title update_rate w. rewrite Window__init__eq.
    by eexists _, _.
Qed.

Lemma get_window_after_construction_witness :
  exists self w',
    Window__init__ 800 600 (Some "PyGameFlow Window") (Some default_update_rate) initial_world
      = Returns self w'
    ∧ get_window w' = Returns self w'.
Proof.
  destruct get_window_after_construction as (_ & _ & Hafter & _).
  eexists _, _. split; [apply Window__init__eq|].
  eapply (Hafter 800 600 (Some "PyGameFlow Window")
                 (Some default_update_rate) initial_world).
  apply Window__init__eq.
Defined.

(** ** _time and UserEvent: scheduling *)

Lemma set_timer_in_range event millis w :
  pygame.INT_MIN <= millis <= pygame.INT_MAX ->
  pygame_initialized w = true ->
  pygame.set_timer event millis w =
  Returns tt
    (if decide (millis <= 0)
     then set_timers (delete (Event.type event) (timers w)) w
     else set_timers (<[Event.type event := (event, millis)]> (timers w)) w).
Proof.
  intros Hr Hinit. unfold pygame.set_timer. rewrite decide_True by done.
  unfold get_world, mbind, M_bind. by rewrite Hinit.
Qed.

Lemma set_timer_overflow event millis w :
  pygame.INT_MAX < millis ->
  pygame.set_timer event millis w = Raises OverflowError w.
Proof.
  intros Hr. unfold pygame.set_timer. rewrite decide_False; [done|]. lia.
Qed.

(** C7, as stated, fails — a positive delay does not always install a
    timer: the runtime converts the delay to a C [int], so with
    [ms = 2 ** 31] both [schedule] and [UserEvent.schedule] raise
    [OverflowError] and the timers are as before. *)
Lemma schedule_delay_beyond_int :
  schedule (UserEvent.event tick_event) (2 ^ 31) initial_world
    = Raises OverflowError initial_world
  ∧ UserEvent_schedule tick_event (2 ^ 31) initial_world
    = Raises OverflowError initial_world
  ∧ ~ (forall (event : Event.t) (ms : Z) (w : World),
         0 < ms ->
         exists w', schedule event ms w = Returns tt w'
           ∧ timers w' !! Event.type event = Some (event, ms)).
Proof.
  split_and!; [reflexivity|reflexivity|].
  intros H.
  destruct (H (UserEvent.event tick_event) (2 ^ 31) initial_world)
    as (w' & Hs & _); [reflexivity|].
  discriminate Hs.
Qed.

(** C7, amended — With a delay [ms <= 0], the global [schedule] and
    [UserEvent.schedule] raise the [RuntimeError] about the delay and leave
    the process state, timers included, as it was.  With [ms] positive and
    within a C [int], at most [2 ** 31 - 1], and the runtime initialised,
    both return, and the runtime then holds a repeating timer for the event
    with interval [ms], which stays until [unschedule] takes it away.  With
    a larger [ms] both raise [OverflowError] out of the runtime and leave
    the process state as it was. *)
Theorem schedule_checks_delay (event : Event.t) (ue : UserEvent.t) (ms : Z)
    (w : World) :
  (ms <= 0 ->
     schedule event ms w
       = Raises (RuntimeError "`ms` should be a non-zero integer") w
     ∧ UserEvent_schedule ue ms w
       = Raises (RuntimeError "`ms` should be a non-zero integer") w)
  ∧ (0 < ms <= pygame.INT_MAX -> pygame_initialized w = true ->
     (exists w', schedule event ms w = Returns tt w'
        ∧ timers w' !! Event.type event = Some (event, ms)
        ∧ (forall ty, ty ≠ Event.type event -> timers w' !! ty = timers w !! ty)
        ∧ exists w'', unschedule event w' = Returns tt w''
            ∧ timers w'' !! Event.type event = None)
     ∧ (exists w', UserEvent_schedule ue ms w = Returns tt w'
        ∧ timers w' !! UserEvent.type ue = Some (UserEvent.event ue, ms)
        ∧ (forall ty, ty ≠ UserEvent.type ue -> timers w' !! ty = timers w !! ty)
        ∧ exists w'', UserEvent_unschedule ue w' = Returns tt w''
            ∧ timers w'' !! UserEvent.type ue = None))
  ∧ (pygame.INT_MAX < ms ->
     schedule event ms w = Raises OverflowError w
     ∧ UserEvent_schedule ue ms w = Raises OverflowError w).
Proof.
  split_and!.
  - intros Hms. unfold schedule, UserEvent_schedule.
    by rewrite !decide_True by done.
  - intros Hms Hinit.
    assert (Hr : pygame.INT_MIN <= ms <= pygame.INT_MAX)
      by (unfold pygame.INT_MIN; lia).
    assert (H0 : pygame.INT_MIN <= 0 <= pygame.INT_MAX) by done.
    unfold schedule, UserEvent_schedule, unschedule, UserEvent_unschedule.
    rewrite !decide_False by lia.
    rewrite !(set_timer_in_range _ ms) by done. rewrite !decide_False by lia.
    split; (eexists; split_and!; [reflexivity|simpl; apply lookup_insert_eq| |]).
    + intros ty Hty. simpl. by apply lookup_insert_ne.
    + eexists. split; [by apply set_timer_in_range|].
      simpl. apply lookup_delete_eq.
    + intros ty Hty. simpl. by apply lookup_insert_ne.
    + eexists. split; [by apply set_timer_in_range|].
      simpl. apply lookup_delete_eq.
  - intros Hms. assert (0 < ms) by (unfold pygame.INT_MAX in Hms; lia).
    unfold schedule, UserEvent_schedule.
    rewrite !decide_False by lia. by rewrite !set_timer_overflow.
Qed.

Lemma schedule_checks_delay_witness :
  schedule (UserEvent.event tick_event) 0 initial_world
    = Raises (RuntimeError "`ms` should be a non-zero integer") initial_world
  ∧ UserEvent_schedule tick_event (-5) initial_world
    = Raises (RuntimeError "`ms` should be a non-zero integer") initial_world
  ∧ (exists w', schedule (UserEvent.event tick_event) 16 initial_world
                 = Returns tt w'
      ∧ timers w' !! USEREVENT 1 = Some (UserEvent.event tick_event, 16))
  ∧ UserEvent_schedule tick_event 4294967296 initial_world
    = Raises OverflowError initial_world.
Proof.
  split_and!.
  - apply (schedule_checks_delay (UserEvent.event tick_event) tick_event 0
             initial_world). lia.
  - apply (schedule_checks_delay (UserEvent.event tick_event) tick_event (-5)
             initial_world). lia.
  - destruct (schedule_checks_delay (UserEvent.event tick_event) tick_event 16
                initial_world) as (_ & H16 & _).
    destruct H16 as [(w' & Hs & Ht & _) _]; [done|reflexivity|].
    exists w'. by split.
  - apply (schedule_checks_delay (UserEvent.event tick_event) tick_event
             4294967296 initial_world). done.
Defined.

(** ** Closing *)

(** C10 — [Window.close] never returns: on a window of the store it turns
    the run-state off, shuts the runtime down and raises [SystemExit], so
    whatever is sequenced after the call is not run; in particular
    [close_window] raises before it clears the global, which still holds
    the window. *)
Theorem close_never_returns (self : nat) (w : World) :
  (forall u w', close self w ≠ Returns u w')
  ∧ (forall u w', exit w ≠ Returns u w')
  ∧ (forall win, windows w !! self = Some win ->
       close self w = Raises SystemExit (closed self win w)
       ∧ pygame_initialized (closed self win w) = false
       ∧ (_WindowContext.active <$> (Window._ctx <$> windows (closed self win w) !! self))
           = Some false
       ∧ (forall (B : Type) (next : M B),
            (close self ;; next) w = Raises SystemExit (closed self win w))
       ∧ (_window w = Some self ->
            close_window w = Raises SystemExit (closed self win w)
            ∧ _window (closed self win w) = Some self)).
Proof.
  split_and!.
  - intros u w'. apply close_not_returns.
  - intros u w'. by rewrite exit_eq.
  - intros win Hwin. pose proof (close_eq _ _ _ Hwin) as Hclose.
    split_and!; [done|done| | |].
    + simpl. by rewrite lookup_insert_eq.
    + intros B next. by apply bind_raises.
    + intros Hactive. split; [|done]. unfold close_window.
      erewrite bind_returns; [|unfold get_window; by rewrite Hactive].
      by apply bind_raises.
Qed.

Lemma close_never_returns_witness :
  exists self w1 w2,
    Window__init__ 800 600 (Some "PyGameFlow Window") (Some default_update_rate) initial_world
      = Returns self w1
    ∧ close_window w1 = Raises SystemExit w2
    ∧ _window w2 = Some self.
Proof.
  eexists _, _, _. split; [apply Window__init__eq|].
  eapply (close_never_returns _ _).
  - simpl. apply lookup_insert_eq.
  - reflexivity.
Defined.

(** C8, as the code runs it — after a window has been built,
    [close_window] tears the runtime down and raises [SystemExit] out of
    [Window.close]; the assignment that clears the global is not reached,
    and asking for the active window afterwards still returns the closed
    window instead of raising. *)
Theorem close_window_keeps_reference :
  exists self w1 w2,
    Window__init__ 800 600 (Some "PyGameFlow Window") (Some default_update_rate) initial_world
      = Returns self w1
    ∧ close_window w1 = Raises SystemExit w2
    ∧ pygame_initialized w2 = false
    ∧ _window w2 = Some self
    ∧ get_window w2 = Returns self w2.
Proof.
  eexists _, _, _. split; [apply Window__init__eq|].
  split.
  - unfold close_window.
    erewrite bind_returns by reflexivity.
    apply bind_raises. apply close_eq. simpl. apply lookup_insert_eq.
  - by split_and!.
Qed.

(** ** Registration: Window.__register_events and View.__register_callers *)

Lemma lookup_add em ty c ty' :
  EventManager.event_handlers (EventManager.add_event_handler em ty c) !! ty' =
  if decide (ty' = ty)
  then Some (dict_set (__name__ c) c (EventManager.handlers_of em ty))
  else EventManager.event_handlers em !! ty'.
Proof.
  unfold EventManager.handlers_of, EventManager.add_event_handler,
    EventManager.setdefault.
  destruct (EventManager.event_handlers em !! ty) as [h|] eqn:Hty;
    rewrite ?Hty; simpl.
  - case_decide as Hd.
    + subst ty'. by rewrite lookup_insert_eq.
    + by rewrite lookup_insert_ne.
  - case_decide as Hd.
    + subst ty'. by rewrite lookup_insert_eq.
    + by rewrite !lookup_insert_ne.
Qed.

Lemma registered_registrations ty attr :
  (ty, attr) ∈ Window.registrations <-> registered ty = Some attr.
Proof.
  unfold Window.registrations. split.
  - rewrite !elem_of_cons, elem_of_nil.
    intros H. repeat destruct H as [H|H]; try done; by injection H as -> ->.
  - destruct ty; simpl; intros [= <-]; set_solver.
Qed.

Lemma registered_builtin ty :
  ty ∈ builtin_event_types <-> is_Some (registered ty).
Proof.
  unfold builtin_event_types. split.
  - rewrite !elem_of_cons, elem_of_nil.
    intros H. repeat destruct H as [H|H]; try done; subst; by eexists.
  - destruct ty; simpl; intros [? [=]]; set_solver.
Qed.

(** A run of registrations for pairwise distinct event types writes one
    slot into the table of each of them. *)
Lemma lookup_foldl_add (cb : string -> Callback) (l : list (EventType * string))
    em ty :
  NoDup l.*1 ->
  EventManager.event_handlers
    (foldl (fun em '(ty, attr) => EventManager.add_event_handler em ty (cb attr))
           em l) !! ty =
  match (list_to_map l : gmap EventType string) !! ty with
  | Some attr =>
      Some (dict_set (__name__ (cb attr)) (cb attr)
                     (EventManager.handlers_of em ty))
  | None => EventManager.event_handlers em !! ty
  end.
Proof.
  revert em. induction l as [|[ty0 a0] l IH]; intros em Hnd; csimpl.
  - by rewrite lookup_empty.
  - apply NoDup_cons in Hnd as [Hty0 Hnd]. rewrite IH by done.
    rewrite lookup_insert. case_decide as Heq.
    + subst ty0. rewrite (not_elem_of_list_to_map_1 _ _ Hty0).
      rewrite lookup_add. by rewrite decide_True.
    + rewrite handlers_of_add, lookup_add. by rewrite !decide_False.
Qed.

(** [__register_events] writes one slot into the table of every built-in
    event type and leaves every other table alone. *)
Lemma lookup_register_events self w ty :
  EventManager.event_handlers
    (Window.event_manager (Window.__register_events self w)) !! ty =
  match registered ty with
  | Some attr =>
      Some (dict_set (__name__ (Window.getattr self w attr))
                     (Window.getattr self w attr)
                     (EventManager.handlers_of (Window.event_manager w) ty))
  | None => EventManager.event_handlers (Window.event_manager w) !! ty
  end.
Proof.
  unfold Window.__register_events.
  change (Window.event_manager (Window.set_event_manager ?em _)) with em.
  rewrite (lookup_foldl_add (Window.getattr self w)).
  - by destruct ty.
  - unfold Window.registrations. csimpl. apply NoDup_ListNoDup.
    repeat constructor; simpl; intuition discriminate.
Qed.

Lemma handlers_register_events self w ty :
  EventManager.handlers_of
    (Window.event_manager (Window.__register_events self w)) ty =
  match registered ty with
  | Some attr =>
      dict_set (__name__ (Window.getattr self w attr))
               (Window.getattr self w attr)
               (EventManager.handlers_of (Window.event_manager w) ty)
  | None => EventManager.handlers_of (Window.event_manager w) ty
  end.
Proof.
  unfold EventManager.handlers_of at 1. rewrite lookup_register_events.
  by destruct (registered ty).
Qed.

Lemma dict_register_events self w :
  Window.__dict__ (Window.__register_events self w) = Window.__dict__ w.
Proof. reflexivity. Qed.

Lemma foldl_setattr (f : string -> Callback) (l : list string) w :
  Window.__dict__ (foldl (fun w name => Window.setattr name (f name) w) w l)
    = foldl (fun d name => <[name := f name]> d) (Window.__dict__ w) l
  ∧ Window.event_manager (foldl (fun w name => Window.setattr name (f name) w) w l)
    = Window.event_manager w.
Proof.
  revert w. induction l as [|n l IH]; intros w; [done|].
  simpl. destruct (IH (Window.setattr n (f n) w)) as [-> ->]. done.
Qed.

Lemma dict_register_callers v w :
  Window.__dict__ (View.__register_callers v w) = bind_callers v (Window.__dict__ w).
Proof.
  unfold View.__register_callers. rewrite dict_register_events.
  apply foldl_setattr.
Qed.

Lemma lookup_bind_callers v d attr :
  bind_callers v d !! attr =
  if decide (attr ∈ View.callers) then Some (View.method v attr) else d !! attr.
Proof.
  unfold bind_callers. generalize View.callers as l. intros l. revert d.
  induction l as [|n l IH] using rev_ind; intros d.
  - done.
  - rewrite foldl_snoc. rewrite lookup_insert.
    destruct (decide (n = attr)) as [Hn|Hn].
    + subst n. rewrite decide_True; [done|].
      apply elem_of_app. right. apply list_elem_of_here.
    + rewrite IH. destruct (decide (attr ∈ l)) as [Hin|Hin].
      * rewrite decide_True; [done|]. apply elem_of_app. by left.
      * rewrite decide_False; [done|].
        intros [?|Hs]%elem_of_app; [done|].
        apply list_elem_of_singleton in Hs. congruence.
Qed.

(** A later activation overwrites every attribute an earlier one bound. *)
Lemma bind_callers_bind_callers v v' d :
  bind_callers v (bind_callers v' d) = bind_callers v d.
Proof.
  apply map_eq. intros attr. rewrite !lookup_bind_callers.
  by case_decide.
Qed.

Lemma getattr_attr_of self w attr :
  Window.getattr self w attr = attr_of self (Window.__dict__ w) attr.
Proof. reflexivity. Qed.

(** After an activation the attributes the view binds are the view's
    methods; every other attribute is read as before. *)
Lemma attr_of_bind_callers self v d attr :
  attr_of self (bind_callers v d) attr =
  if decide (attr ∈ View.callers) then View.method v attr else attr_of self d attr.
Proof.
  unfold attr_of. rewrite lookup_bind_callers. by case_decide.
Qed.

Lemma lookup_register_callers v w ty :
  EventManager.event_handlers
    (Window.event_manager (View.__register_callers v w)) !! ty =
  match registered ty with
  | Some attr =>
      let c := attr_of (View.window v) (bind_callers v (Window.__dict__ w)) attr in
      Some (dict_set (__name__ c) c
              (EventManager.handlers_of (Window.event_manager w) ty))
  | None => EventManager.event_handlers (Window.event_manager w) !! ty
  end.
Proof.
  unfold View.__register_callers. rewrite lookup_register_events.
  destruct (registered ty) as [attr|].
  - rewrite getattr_attr_of.
    destruct (foldl_setattr (View.method v) View.callers w) as [-> Hem].
    unfold EventManager.handlers_of. by rewrite Hem.
  - by destruct (foldl_setattr (View.method v) View.callers w) as [_ ->].
Qed.

Lemma handlers_register_callers v w ty :
  EventManager.handlers_of (Window.event_manager (View.__register_callers v w)) ty =
  match registered ty with
  | Some attr =>
      let c := attr_of (View.window v) (bind_callers v (Window.__dict__ w)) attr in
      dict_set (__name__ c) c (EventManager.handlers_of (Window.event_manager w) ty)
  | None => EventManager.handlers_of (Window.event_manager w) ty
  end.
Proof.
  unfold EventManager.handlers_of at 1. rewrite lookup_register_callers.
  by destruct (registered ty).
Qed.

Lemma same_names_sym A B : same_names A B -> same_names B A.
Proof. intros H ty attr Hreg Hattr. symmetry. by apply (H ty). Qed.

Lemma same_names_def A B :
  View.__names__ A = ∅ -> View.__names__ B = ∅ -> same_names A B.
Proof.
  intros HA HB ty attr _ _. unfold View.function_name. by rewrite HA, HB.
Qed.

(** For views whose handlers go by the same names, the name of the
    callable behind a registered attribute does not depend on which of them
    was activated last. *)
Lemma name_attr_of_bind_callers self self' v v' d ty attr :
  same_names v v' -> (ty, attr) ∈ Window.registrations ->
  __name__ (attr_of self (bind_callers v d) attr) =
  __name__ (attr_of self' (bind_callers v' d) attr).
Proof.
  intros Hnames Hreg. rewrite !attr_of_bind_callers.
  case_decide as Hattr; [exact (Hnames ty attr Hreg Hattr)|].
  unfold attr_of. by destruct (d !! attr).
Qed.

Lemma EventManager_eq (em em' : EventManager.t) :
  (forall ty, EventManager.event_handlers em !! ty
              = EventManager.event_handlers em' !! ty) ->
  em = em'.
Proof.
  destruct em as [m], em' as [m']; simpl. intros H. f_equal. by apply map_eq.
Qed.

(** The bindings an activation leaves depend only on the bindings it finds. *)
Lemma register_callers_bindings v w w' :
  Window.event_manager w = Window.event_manager w' ->
  Window.__dict__ w = Window.__dict__ w' ->
  Window.event_manager (View.__register_callers v w)
    = Window.event_manager (View.__register_callers v w')
  ∧ Window.__dict__ (View.__register_callers v w)
    = Window.__dict__ (View.__register_callers v w').
Proof.
  intros Hem Hd. split.
  - apply EventManager_eq. intros ty. rewrite !lookup_register_callers.
    by rewrite Hem, Hd.
  - by rewrite !dict_register_callers, Hd.
Qed.

(** For views whose handlers go by the same names, activating [A], then
    [B], then [A] again leaves the bindings that activating [A] alone
    leaves. *)
Lemma register_callers_round_trip A B w :
  same_names A B ->
  let w1 := View.__register_callers A w in
  let w3 := View.__register_callers A
              (View.__register_callers B (View.__register_callers A w)) in
  Window.event_manager w3 = Window.event_manager w1
  ∧ Window.__dict__ w3 = Window.__dict__ w1.
Proof.
  intros Hnames. cbv zeta. split.
  - apply EventManager_eq. intros ty.
    rewrite !lookup_register_callers, !handlers_register_callers.
    rewrite !dict_register_callers, !bind_callers_bind_callers.
    destruct (registered ty) as [attr|] eqn:Hreg; [|done].
    apply registered_registrations in Hreg. cbv zeta. f_equal.
    rewrite (name_attr_of_bind_callers (View.window B) (View.window A) B A
               _ ty attr (same_names_sym _ _ Hnames) Hreg).
    by rewrite !dict_set_set.
  - by rewrite !dict_register_callers, !bind_callers_bind_callers.
Qed.

(** The slot an activation writes for an attribute it binds goes by the
    name of the view's function. *)
Lemma register_callers_slot v w ty attr :
  (ty, attr) ∈ Window.registrations -> attr ∈ View.callers ->
  dict_get (View.function_name v attr)
    (EventManager.handlers_of (Window.event_manager (View.__register_callers v w)) ty)
  = Some (View.method v attr).
Proof.
  intros Hreg%registered_registrations Hcaller.
  rewrite handlers_register_callers, Hreg. cbv zeta.
  rewrite attr_of_bind_callers, decide_True by done.
  rewrite dict_get_set. by rewrite decide_True.
Qed.

(** ** Activation of views in the process state *)

Lemma update_undefined r f w :
  windows w !! r = None -> update r f w = Undefined.
Proof. intros Hr. unfold update, deref, mbind, M_bind. by rewrite Hr. Qed.

Lemma show_returns code v w w' :
  show code v w = Returns tt w' ->
  exists win, windows w !! View.window v = Some win
    ∧ code (View.method v "setup") []
        (set_windows (<[View.window v := View.__register_callers v win]>
                        (windows w)) w) = Returns tt w'.
Proof.
  unfold show. destruct (windows w !! View.window v) as [win|] eqn:Hwin.
  - rewrite (bind_returns _ _ _ _ _ (update_eq _ _ _ _ Hwin)). eauto.
  - by rewrite (bind_undefined _ _ _ (update_undefined _ _ _ Hwin)).
Qed.

Lemma show_bindings code v w w' :
  setup_keeps_bindings code v ->
  show code v w = Returns tt w' ->
  exists win win',
    windows w !! View.window v = Some win
    ∧ windows w' !! View.window v = Some win'
    ∧ Window.event_manager win'
        = Window.event_manager (View.__register_callers v win)
    ∧ Window.__dict__ win' = Window.__dict__ (View.__register_callers v win).
Proof.
  intros Hkeep (win & Hwin & Hsetup)%show_returns.
  destruct (Hkeep _ _ (View.window v) Hsetup) as [Hem Hd].
  change (windows (set_windows ?m _)) with m in Hem, Hd.
  rewrite lookup_insert_eq in Hem, Hd.
  destruct (windows w' !! View.window v) as [win'|]; [|discriminate Hem].
  exists win, win'.
  split; [exact Hwin|]. split; [reflexivity|].
  split; [exact (Some_inj _ _ Hem)|exact (Some_inj _ _ Hd)].
Qed.

(** C1, amended — For views [A] and [B] bound to the same window, whose
    handlers go by the same names attribute by attribute (as they do when
    both classes define them under the attribute names) and whose [setup]
    hooks keep the bindings: after [A.show()], [B.show()], [A.show()] the
    event manager and the handler attributes of the window are those that
    the first [A.show()] left, so the table of every built-in event type is
    the one [A]'s activation installed; every slot that an activation
    writes for a view holds [A]'s method, and none holds [B]'s.  In a
    table whose slots were keyed by the names of their callbacks before the
    first activation, as the manager's own methods key them, no slot at all
    holds a method that [B] registers. *)
Theorem view_round_trip (code : UserCode) (A B : View.t) (w0 w1 w2 w3 : World) :
  View.window A = View.window B ->
  same_names A B ->
  setup_keeps_bindings code A ->
  setup_keeps_bindings code B ->
  show code A w0 = Returns tt w1 ->
  show code B w1 = Returns tt w2 ->
  show code A w2 = Returns tt w3 ->
  exists win1 win3,
    windows w1 !! View.window A = Some win1
    ∧ windows w3 !! View.window A = Some win3
    ∧ Window.event_manager win3 = Window.event_manager win1
    ∧ Window.__dict__ win3 = Window.__dict__ win1
    ∧ (forall ty, ty ∈ builtin_event_types ->
         EventManager.handlers_of (Window.event_manager win3) ty
         = EventManager.handlers_of (Window.event_manager win1) ty)
    ∧ (forall ty attr,
         (ty, attr) ∈ Window.registrations -> attr ∈ View.callers ->
         dict_get (View.function_name A attr)
                  (EventManager.handlers_of (Window.event_manager win3) ty)
         = Some (View.method A attr))
    ∧ (View.id A ≠ View.id B ->
       forall ty attr,
         (ty, attr) ∈ Window.registrations -> attr ∈ View.callers ->
         dict_get (View.function_name B attr)
                  (EventManager.handlers_of (Window.event_manager win3) ty)
         ≠ Some (View.method B attr))
    ∧ (View.id A ≠ View.id B ->
       forall win0 ty attr name,
         windows w0 !! View.window A = Some win0 ->
         well_keyed (EventManager.handlers_of (Window.event_manager win0) ty) ->
         (ty, attr) ∈ Window.registrations -> attr ∈ View.callers ->
         dict_get name
                  (EventManager.handlers_of (Window.event_manager win3) ty)
         ≠ Some (View.method B attr)).
Proof.
  intros Hsame Hnames HA HB H1 H2 H3.
  destruct (show_bindings _ _ _ _ HA H1) as (win0 & win1 & Hw0 & Hw1 & Hem1 & Hd1).
  destruct (show_bindings _ _ _ _ HB H2) as (win1' & win2 & Hw1' & Hw2 & Hem2 & Hd2).
  destruct (show_bindings _ _ _ _ HA H3) as (win2' & win3 & Hw2' & Hw3 & Hem3 & Hd3).
  rewrite <-Hsame in Hw1', Hw2. rewrite Hw1 in Hw1'. injection Hw1' as <-.
  rewrite Hw2 in Hw2'. injection Hw2' as <-.
  destruct (register_callers_bindings B _ _ Hem1 Hd1) as [HemB HdB].
  rewrite HemB in Hem2. rewrite HdB in Hd2.
  destruct (register_callers_bindings A _ _ Hem2 Hd2) as [HemA HdA].
  rewrite HemA in Hem3. rewrite HdA in Hd3.
  destruct (register_callers_round_trip A B win0 Hnames) as [Hrt_em Hrt_d].
  cbv zeta in Hrt_em, Hrt_d. rewrite Hrt_em in Hem3. rewrite Hrt_d in Hd3.
  assert (Hslot : forall ty attr,
    (ty, attr) ∈ Window.registrations -> attr ∈ View.callers ->
    dict_get (View.function_name A attr)
             (EventManager.handlers_of (Window.event_manager win3) ty)
    = Some (View.method A attr)).
  { intros ty attr Hreg Hcaller. rewrite Hem3.
    by apply register_callers_slot. }
  exists win1, win3. split_and!; [done|done|congruence|congruence| |done| |].
  - intros ty _. by rewrite Hem3, Hem1.
  - intros Hid ty attr Hreg Hcaller.
    rewrite <-(Hnames ty attr Hreg Hcaller), (Hslot _ _ Hreg Hcaller).
    intros [= Heq]. done.
  - intros Hid win0' ty attr name Hw0' Hkeyed Hreg Hcaller Hget.
    rewrite Hw0 in Hw0'. injection Hw0' as <-.
    assert (Hname : name = View.function_name A attr).
    { rewrite (Hnames ty attr Hreg Hcaller).
      apply (well_keyed_get _ (View.method B attr) _) in Hget; [done|].
      rewrite Hem3, handlers_register_callers.
      apply registered_registrations in Hreg. rewrite Hreg. cbv zeta.
      by apply well_keyed_set. }
    rewrite Hname, (Hslot _ _ Hreg Hcaller) in Hget.
    injection Hget as Heq. done.
Qed.

(** ** The program of two views *)

Lemma keeps_bindings_background r color title :
  keeps_bindings (update r (Window.set_background_color color) ;;
                  set_title (Some title)).
Proof.
  intros w w' r'. destruct (windows w !! r) as [win|] eqn:Hwin.
  - rewrite (bind_returns _ _ _ _ _ (update_eq _ _ _ _ Hwin)).
    intros [= <-].
    change (windows (set_caption_field _ (set_windows ?m _))) with m.
    rewrite lookup_insert. case_decide as Hr; [|done].
    subst r'. by rewrite Hwin.
  - by rewrite (bind_undefined _ _ _ (update_undefined _ _ _ Hwin)).
Qed.

Lemma two_views_keeps_bindings v :
  setup_keeps_bindings two_views v.
Proof.
  unfold setup_keeps_bindings, two_views, two_views_setup,
    View_set_background_color.
  repeat case_decide; try discriminate;
    first [apply keeps_bindings_background | by intros w w' r [= <-]].
Qed.

(** The first view is shown and the return key arrives: its handler shows
    the second view while the event is being dispatched, and afterwards the
    key-down slot holds the handler of the second view. *)
Example two_views_return_key :
  let w1 := after (show two_views view1) two_views_world in
  let w2 := after (pygame.event_post return_key) w1 in
  exists w3 win3,
    handle_events (invoke two_views 3) 0 w2 = Returns tt w3
    ∧ windows w3 !! 0%nat = Some win3
    ∧ EventManager.handlers_of (Window.event_manager win3) KEYDOWN
      = [("on_key_press", View.method view2 "on_key_press")]
    ∧ Window.background_color win3 = Named "red"
    ∧ caption w3 = "View 2".
Proof.
  eexists _, _. split; [vm_compute; reflexivity|].
  split; [vm_compute; reflexivity|].
  split_and!; vm_compute; reflexivity.
Qed.

(** The base classes change nothing. *)
Lemma base_classes_returns c args w u w' :
  base_classes c args w = Returns u w' -> w' = w.
Proof.
  unfold base_classes. destruct (dict_get _ _) as [arity|].
  - case_decide; [by intros [= <-]|discriminate].
  - by intros [= <-].
Qed.

Lemma base_classes_keeps_bindings v : setup_keeps_bindings base_classes v.
Proof. intros w w' r H. by rewrite (base_classes_returns _ _ _ _ _ H). Qed.

(** C1, as stated, fails — the slots of the manager go by the [__name__]
    of the callback.  A window is built, then a view whose class binds
    [on_key_press] to a function named [handle_key], then a view whose
    handler is named [on_key_press].  The first view is shown, then the
    second, then the first again: the table of the key-down type then
    still holds the handler of the second view, under ["on_key_press"],
    next to the handler of the first. *)
Lemma view_round_trip_stale_binding :
  (let w1 := after (show base_classes aliased_view) aliased_views_world in
   let w2 := after (show base_classes view1) w1 in
   let w3 := after (show base_classes aliased_view) w2 in
   exists win3,
     windows w3 !! 0%nat = Some win3
     ∧ Window.getattr 0 win3 "on_key_press"
       = View.method aliased_view "on_key_press"
     ∧ EventManager.handlers_of (Window.event_manager win3) KEYDOWN
       = [("on_key_press", View.method view1 "on_key_press");
          ("handle_key", View.method aliased_view "on_key_press")])
  ∧ ~ (forall (code : UserCode) (A B : View.t) (w0 w1 w2 w3 : World),
         View.window A = View.window B ->
         View.id A ≠ View.id B ->
         setup_keeps_bindings code A ->
         setup_keeps_bindings code B ->
         show code A w0 = Returns tt w1 ->
         show code B w1 = Returns tt w2 ->
         show code A w2 = Returns tt w3 ->
         exists win3,
           windows w3 !! View.window A = Some win3
           ∧ (forall ty attr name,
                (ty, attr) ∈ Window.registrations -> attr ∈ View.callers ->
                dict_get name
                  (EventManager.handlers_of (Window.event_manager win3) ty)
                ≠ Some (View.method B attr))).
Proof.
  split.
  - eexists. split; [vm_compute; reflexivity|].
    split; vm_compute; reflexivity.
  - intros H.
    destruct (H base_classes aliased_view view1 aliased_views_world
                (after (show base_classes aliased_view) aliased_views_world)
                (after (show base_classes view1)
                   (after (show base_classes aliased_view)
                      aliased_views_world))
                (after (show base_classes aliased_view)
                   (after (show base_classes view1)
                      (after (show base_classes aliased_view)
                         aliased_views_world))))
      as (win3 & H3 & Hnone).
    + reflexivity.
    + discriminate.
    + apply base_classes_keeps_bindings.
    + apply base_classes_keeps_bindings.
    + vm_compute. reflexivity.
    + vm_compute. reflexivity.
    + vm_compute. reflexivity.
    + apply (Hnone KEYDOWN "on_key_press" "on_key_press");
        [apply registered_registrations; reflexivity|in_list|].
      vm_compute in H3. injection H3 as <-.
      vm_compute. reflexivity.
Qed.

Lemma view_round_trip_witness :
  let w1 := after (show two_views view1) two_views_world in
  let w2 := after (show two_views view2) w1 in
  let w3 := after (show two_views view1) w2 in
  exists win1 win3,
    windows w1 !! 0%nat = Some win1
    ∧ windows w3 !! 0%nat = Some win3
    ∧ Window.event_manager win3 = Window.event_manager win1
    ∧ dict_get "on_key_press"
        (EventManager.handlers_of (Window.event_manager win3) KEYDOWN)
      = Some (View.method view1 "on_key_press").
Proof.
  intros w1 w2 w3.
  destruct (view_round_trip two_views view1 view2
              two_views_world w1 w2 w3)
    as (win1 & win3 & H1 & H3 & Hem & _ & _ & Hslot & _ & _).
  - reflexivity.
  - by apply same_names_def.
  - apply two_views_keeps_bindings.
  - apply two_views_keeps_bindings.
  - vm_compute. reflexivity.
  - vm_compute. reflexivity.
  - vm_compute. reflexivity.
  - exists win1, win3. split_and!; [exact H1|exact H3|exact Hem|].
    apply (Hslot KEYDOWN "on_key_press").
    + apply registered_registrations. reflexivity.
    + in_list.
Defined.

(** ** Construction of a view *)

(** C4, as stated, fails — building a view on a new window changes the
    handler attributes and the event manager of the window. *)
Lemma view_construction_changes_bindings :
  ~ (forall (id : nat) (names : gmap string string) (window : nat)
            (w : World) (v : View.t) (w' : World),
       View__init__ id names window w = Returns v w' ->
       (Window.event_manager <$> windows w' !! window)
         = (Window.event_manager <$> windows w !! window)
       ∧ (Window.__dict__ <$> windows w' !! window)
         = (Window.__dict__ <$> windows w !! window)).
Proof.
  intros H.
  destruct (H 1%nat ∅ 0%nat
              (after (Window__init__ 1000 650 (Some "PyGameFlow Window")
                                     (Some default_update_rate))
                     initial_world)
              view1 _ eq_refl) as [_ Hd].
  apply (f_equal (fun o => o ≫= (.!! "on_draw"))) in Hd.
  vm_compute in Hd. discriminate Hd.
Qed.

(** C4, amended — [View(w)] binds the view to [w] and registers its
    callers on [w] exactly as [show] does: the attributes that
    [__register_callers] assigns become the view's methods, and in the
    tables of their event types the slots that go by the names of those
    methods hold them.  What construction leaves out is the [setup] hook:
    [show] is the same registration followed by [setup]. *)
Theorem view_construction_registers (id : nat) (names : gmap string string)
    (window : nat) (w : World) (win : Window.t) :
  windows w !! window = Some win ->
  let v := {| View.id := id; View.window := window;
              View.__names__ := names |} in
  let win' := View.__register_callers v win in
  let w' := set_windows (<[window := win']> (windows w)) w in
  View__init__ id names window w = Returns v w'
  ∧ View.window v = window
  ∧ (forall code, show code v w = code (View.method v "setup") [] w')
  ∧ (forall attr, attr ∈ View.callers ->
       Window.getattr window win' attr = View.method v attr)
  ∧ (forall ty attr,
       (ty, attr) ∈ Window.registrations -> attr ∈ View.callers ->
       dict_get (__name__ (View.method v attr))
                (EventManager.handlers_of (Window.event_manager win') ty)
       = Some (View.method v attr)).
Proof.
  intros Hwin v win' w'. split_and!.
  - unfold View__init__.
    by rewrite (bind_returns _ _ _ _ _ (update_eq _ _ _ _ Hwin)).
  - reflexivity.
  - intros code. unfold show.
    by rewrite (bind_returns _ _ _ _ _ (update_eq _ _ _ _ Hwin)).
  - intros attr Hattr. unfold win'.
    rewrite getattr_attr_of, dict_register_callers, attr_of_bind_callers.
    by rewrite decide_True.
  - intros ty attr Hreg Hattr.
    exact (register_callers_slot v win ty attr Hreg Hattr).
Qed.

Lemma view_construction_registers_witness :
  exists w1 w2 win2,
    Window__init__ 1000 650 (Some "PyGameFlow Window")
                   (Some default_update_rate) initial_world
      = Returns 0%nat w1
    ∧ View__init__ 3 {["on_key_press" := "handle_key"]} 0 w1
      = Returns aliased_view w2
    ∧ windows w2 !! 0%nat = Some win2
    ∧ Window.getattr 0 win2 "on_key_press"
      = View.method aliased_view "on_key_press"
    ∧ dict_get "handle_key"
        (EventManager.handlers_of (Window.event_manager win2) KEYDOWN)
      = Some (View.method aliased_view "on_key_press").
Proof.
  eexists _, _, _. split; [apply Window__init__eq|].
  edestruct (view_construction_registers 3 {["on_key_press" := "handle_key"]} 0)
    as (Hinit & _ & _ & Hattr & Hslot);
    [|split; [exact Hinit|]].
  - cbn. apply lookup_insert_eq.
  - split; [cbn; apply lookup_insert_eq|]. split.
    + apply Hattr. in_list.
    + apply (Hslot KEYDOWN "on_key_press").
      * apply registered_registrations. reflexivity.
      * in_list.
Defined.

(** ** Mouse motion *)

Lemma demultiplex call self x y dx dy buttons modifiers w win :
  windows w !! self = Some win ->
  __on_mouse_motion call self x y dx dy buttons modifiers w =
  if decide (buttons = VTuple [0; 0; 0])
  then call (Window.getattr self win "on_mouse_motion")
            [x; y; dx; dy; modifiers] w
  else call (Window.getattr self win "on_mouse_drag")
            [x; y; dx; dy; buttons; modifiers] w.
Proof.
  intros Hwin. unfold __on_mouse_motion.
  rewrite (bind_returns _ _ _ _ _ (deref_eq _ _ _ Hwin)).
  by case_decide.
Qed.

Lemma current_handlers_eq self ty w win :
  windows w !! self = Some win ->
  current_handlers self ty w
  = Returns (EventManager.handlers_of (Window.event_manager win) ty) w.
Proof.
  intros Hwin. unfold current_handlers.
  by rewrite (bind_returns _ _ _ _ _ (deref_eq _ _ _ Hwin)).
Qed.

Lemma motion_event_mapping e px py rx ry buttons w :
  Event.type e = MOUSEMOTION ->
  Event.dict e !! "pos" = Some (VTuple [px; py]) ->
  Event.dict e !! "rel" = Some (VTuple [rx; ry]) ->
  Event.dict e !! "buttons" = Some buttons ->
  event_mapping e w
  = Returns [VInt px; VInt py; VInt rx; VInt ry; buttons; VInt (key_mods w)] w.
Proof.
  intros Hty Hpos Hrel Hbuttons.
  unfold event_mapping, event_attr. rewrite Hty.
  unfold mbind, M_bind. rewrite Hpos. cbn. rewrite Hrel. cbn.
  rewrite Hbuttons. reflexivity.
Qed.

(** C3 — A dispatched mouse-motion event reaches the demultiplexer of the
    window with the arguments [(x, y, dx, dy, buttons, modifiers)]; with
    [buttons == (0, 0, 0)] the demultiplexer makes the single call
    [on_mouse_motion(x, y, dx, dy, modifiers)], with any other [buttons] the
    single call [on_mouse_drag(x, y, dx, dy, buttons, modifiers)].  The
    method is its one call, whatever running a callable means, so the
    other handler is not called. *)
Theorem motion_demultiplexed (self : nat) (w : World) (win : Window.t) :
  windows w !! self = Some win ->
  (forall call x y dx dy modifiers,
     __on_mouse_motion call self x y dx dy (VTuple [0; 0; 0]) modifiers w
     = call (Window.getattr self win "on_mouse_motion")
            [x; y; dx; dy; modifiers] w)
  ∧ (forall call x y dx dy buttons modifiers,
       buttons ≠ VTuple [0; 0; 0] ->
       __on_mouse_motion call self x y dx dy buttons modifiers w
       = call (Window.getattr self win "on_mouse_drag")
              [x; y; dx; dy; buttons; modifiers] w)
  ∧ (forall code depth e px py rx ry buttons,
       EventManager.handlers_of (Window.event_manager win) MOUSEMOTION
         = [("__on_mouse_motion", demultiplexer self)] ->
       Event.type e = MOUSEMOTION ->
       Event.dict e !! "pos" = Some (VTuple [px; py]) ->
       Event.dict e !! "rel" = Some (VTuple [rx; ry]) ->
       Event.dict e !! "buttons" = Some buttons ->
       dispatch (invoke code (S depth)) self e w
       = (__on_mouse_motion (invoke code depth) self
            (VInt px) (VInt py) (VInt rx) (VInt ry) buttons (VInt (key_mods w)) ;;
          for_values (invoke code (S depth)) self e 1 0 1) w).
Proof.
  intros Hwin. split_and!.
  - intros. by rewrite (demultiplex _ _ _ _ _ _ _ _ _ _ Hwin), decide_True.
  - intros. by rewrite (demultiplex _ _ _ _ _ _ _ _ _ _ Hwin), decide_False.
  - intros code depth e px py rx ry buttons Htable Hty Hpos Hrel Hbuttons.
    unfold dispatch.
    rewrite (bind_returns _ _ _ _ _ (current_handlers_eq _ _ _ _ Hwin)).
    rewrite Hty, Htable. cbn [dict_truthy length].
    change (for_values ?c self e 1 1 0) with
      (handlers ← current_handlers self (Event.type e);
       if decide (length handlers = 1%nat) then
         match dict_values handlers !! 0%nat with
         | Some callback =>
             args ← event_mapping e;
             c callback args ;; for_values c self e 1 0 1
         | None => mret tt
         end
       else raise (RuntimeError "dictionary changed size during iteration")).
    rewrite (bind_returns _ _ _ _ _ (current_handlers_eq _ _ _ _ Hwin)).
    rewrite Hty, Htable. cbn [length dict_values fmap list_fmap lookup list_lookup snd].
    rewrite decide_True by done.
    rewrite (bind_returns _ _ _ _ _
               (motion_event_mapping _ _ _ _ _ _ _ Hty Hpos Hrel Hbuttons)).
    reflexivity.
Qed.

Lemma motion_demultiplexed_witness :
  let w := after (Window__init__ 800 600 (Some "PyGameFlow Window") (Some default_update_rate))
                 initial_world in
  (forall call,
     __on_mouse_motion call 0 (VInt 10) (VInt 20) (VInt 1) (VInt (-1))
                       (VTuple [0; 0; 0]) (VInt 0) w
     = call {| __self__ := WindowObj 0; __name__ := "on_mouse_motion" |}
            [VInt 10; VInt 20; VInt 1; VInt (-1); VInt 0] w)
  ∧ (forall call,
       __on_mouse_motion call 0 (VInt 10) (VInt 20) (VInt 1) (VInt (-1))
                         (VTuple [1; 0; 0]) (VInt 0) w
       = call {| __self__ := WindowObj 0; __name__ := "on_mouse_drag" |}
              [VInt 10; VInt 20; VInt 1; VInt (-1); VTuple [1; 0; 0]; VInt 0] w)
  ∧ dispatch (invoke base_classes 2) 0 (motion_event [1; 0; 0]) w
    = Returns tt w.
Proof.
  intros w.
  edestruct (motion_demultiplexed 0 w) as (Hmotion & Hdrag & Hdispatch).
  { cbn. apply lookup_insert_eq. }
  split_and!.
  - intros call. apply Hmotion.
  - intros call. apply Hdrag. discriminate.
  - erewrite (Hdispatch base_classes 1%nat (motion_event [1; 0; 0])
                10 20 1 (-1) (VTuple [1; 0; 0]));
      [|vm_compute; reflexivity|reflexivity..].
    vm_compute. reflexivity.
Defined.

Lemma motion_untouched_register_callers v win :
  motion_untouched win -> motion_untouched (View.__register_callers v win).
Proof.
  unfold motion_untouched. rewrite dict_register_callers, !lookup_bind_callers.
  intros (Hm & Hd & Hp).
  rewrite !decide_False; [done|..];
    intros Hin%list_elem_of_In; simpl in Hin; intuition discriminate.
Qed.



(** ** The run context *)

Lemma set_windows_set_windows m m' w :
  set_windows m (set_windows m' w) = set_windows m w.
Proof. reflexivity. Qed.

Lemma while_active_unfold code depth fuel self :
  while_active code depth fuel self =
  (win ← deref self;
   if _WindowContext.active (Window._ctx win) then
     match fuel with
     | O => (fun _ => Undefined) : M unit
     | S fuel' =>
         loop_body code depth self ;; while_active code depth fuel' self
     end
   else mret tt).
Proof. destruct fuel; reflexivity. Qed.

(** When the loop ends, the window is there and its run-state is off. *)
Lemma while_active_returns code depth fuel self w w' :
  while_active code depth fuel self w = Returns tt w' ->
  exists win', windows w' !! self = Some win'
    ∧ _WindowContext.active (Window._ctx win') = false.
Proof.
  revert w. induction fuel as [|fuel IH]; intros w;
    rewrite while_active_unfold; unfold mbind, M_bind, deref;
    destruct (windows w !! self) as [win|] eqn:Hwin; try discriminate;
    destruct (_WindowContext.active (Window._ctx win)) eqn:Hactive;
    try discriminate.
  - intros [= <-]. eauto.
  - destruct (loop_body code depth self w) as [[] w1|e w1|]; try discriminate.
    apply IH.
  - intros [= <-]. eauto.
Qed.

(** A loop that ended does so with any larger budget. *)
Lemma while_active_more code depth fuel extra self w :
  while_active code depth fuel self w ≠ Undefined ->
  while_active code depth (fuel + extra) self w
  = while_active code depth fuel self w.
Proof.
  revert w. induction fuel as [|fuel IH]; intros w.
  - rewrite (while_active_unfold _ _ (0 + extra)), (while_active_unfold _ _ 0).
    unfold mbind, M_bind, deref.
    destruct (windows w !! self) as [win|]; [|done].
    by destruct (_WindowContext.active (Window._ctx win)).
  - rewrite (while_active_unfold _ _ (S fuel + extra)),
      (while_active_unfold _ _ (S fuel)).
    unfold mbind, M_bind, deref.
    destruct (windows w !! self) as [win|]; [|done].
    destruct (_WindowContext.active (Window._ctx win)); [|done].
    cbn [Nat.add].
    destruct (loop_body code depth self w) as [[] w1|e w1|]; [|done..].
    apply IH.
Qed.

Lemma display_set_mode_eq size w :
  0 <= size.1 -> 0 <= size.2 ->
  pygame.display_set_mode size w = Returns size w.
Proof.
  intros H1 H2. unfold pygame.display_set_mode.
  rewrite decide_False; [done|]. lia.
Qed.

Lemma Window_run_eq code depth fuel self w win :
  windows w !! self = Some win ->
  0 <= Window.width win -> 0 <= Window.height win ->
  Window_run code depth fuel self w
  = guarded self (while_active code depth fuel self) (entered self win w).
Proof.
  intros Hwin Hwidth Hheight. unfold Window_run, with_ctx, __enter__.
  rewrite (bind_returns _ _ _ _ _ (deref_eq _ _ _ Hwin)).
  rewrite (bind_returns _ _ _ _ _
             (display_set_mode_eq (Window.size win) w Hwidth Hheight)).
  rewrite (bind_returns _ _ _ _ _ (update_eq _ _ _ _ Hwin)).
  erewrite bind_returns;
    [|apply update_eq; cbn [windows set_windows]; apply lookup_insert_eq].
  unfold entered, ctx_on. rewrite set_windows_set_windows.
  cbn [windows set_windows]. by rewrite insert_insert_eq.
Qed.

(** A surface of negative width or height is refused: [run] raises before
    it enters the context. *)
Lemma Window_run_refused code depth fuel self w win :
  windows w !! self = Some win ->
  Window.width win < 0 ∨ Window.height win < 0 ->
  Window_run code depth fuel self w
  = Raises (PygameError "Cannot set negative sized display mode") w.
Proof.
  intros Hwin Hneg. unfold Window_run.
  rewrite (bind_returns _ _ _ _ _ (deref_eq _ _ _ Hwin)).
  apply bind_raises. unfold pygame.display_set_mode.
  by rewrite decide_True.
Qed.

Lemma exit_normally self w win :
  windows w !! self = Some win ->
  (__exit__ self None ;; mret tt) w
  = (close (_WindowContext.window (Window._ctx win)) ;; mret tt)
      (set_windows (<[self := ctx_off win]> (windows w)) w).
Proof.
  intros Hwin. unfold __exit__, mbind, M_bind.
  rewrite (update_eq _ _ _ _ Hwin).
  erewrite deref_eq; [|cbn [windows set_windows]; apply lookup_insert_eq].
  fold (ctx_off win).
  by destruct (close _ _).
Qed.

Lemma closed_ctx_off self win w :
  closed self (ctx_off win) (set_windows (<[self := ctx_off win]> (windows w)) w)
  = closed self win w.
Proof.
  unfold closed. cbn [windows set_windows]. rewrite insert_insert_eq.
  reflexivity.
Qed.

(** What the context does with a block that ends normally. *)
Lemma guarded_returns self block start w' win' :
  block start = Returns tt w' ->
  windows w' !! self = Some win' ->
  guarded self block start
  = (close (_WindowContext.window (Window._ctx win')) ;; mret tt)
      (set_windows (<[self := ctx_off win']> (windows w')) w').
Proof.
  intros Hblock Hwin'. unfold guarded. rewrite Hblock.
  by apply exit_normally.
Qed.

Lemma close_then_not_returns {A} r (next : M A) w u w' :
  (close r ;; next) w ≠ Returns u w'.
Proof.
  unfold mbind, M_bind.
  destruct (close r w) as [u' w2| |] eqn:Hclose; [|done..].
  by apply close_not_returns in Hclose.
Qed.

(** C5 — The context around the loop of [run] is asymmetric.  Wherever
    the loop starts: when it ends normally, [__exit__] turns the run-state
    off and calls [close] on the window of the context, so the [with]
    statement does not return, and with the context on its own window it
    raises [SystemExit] in a world whose runtime is shut down; when an
    exception leaves the loop, the [with] statement raises that exception
    in the very world the loop left: [close] is not called and the runtime
    is not torn down by the context.  [run] enters the context once the
    runtime has handed out the surface, which it does for a size that is
    not negative: then [run] ends as the [with] statement does, under any
    larger loop budget too.  For a negative size [run] raises
    [pygame.error] before the context is entered. *)
Theorem run_context_asymmetric (code : UserCode) (depth fuel self : nat)
    (w : World) (win : Window.t) :
  windows w !! self = Some win ->
  let block := while_active code depth fuel self in
  let start := entered self win w in
  (forall w0 w',
     block w0 = Returns tt w' ->
     exists win',
       windows w' !! self = Some win'
       ∧ guarded self block w0
         = (close (_WindowContext.window (Window._ctx win')) ;; mret tt)
             (set_windows (<[self := ctx_off win']> (windows w')) w')
       ∧ (forall u wf, guarded self block w0 ≠ Returns u wf)
       ∧ (_WindowContext.window (Window._ctx win') = self ->
          guarded self block w0 = Raises SystemExit (closed self win' w')
          ∧ pygame_initialized (closed self win' w') = false))
  ∧ (forall w0 e w',
       block w0 = Raises e w' -> guarded self block w0 = Raises e w')
  ∧ (0 <= Window.width win -> 0 <= Window.height win ->
     (forall w',
        block start = Returns tt w' ->
        exists win',
          windows w' !! self = Some win'
          ∧ Window_run code depth fuel self w
            = (close (_WindowContext.window (Window._ctx win')) ;; mret tt)
                (set_windows (<[self := ctx_off win']> (windows w')) w')
          ∧ (forall u wf, Window_run code depth fuel self w ≠ Returns u wf)
          ∧ (_WindowContext.window (Window._ctx win') = self ->
             forall extra,
               Window_run code depth (fuel + extra) self w
               = Raises SystemExit (closed self win' w')
               ∧ pygame_initialized (closed self win' w') = false))
     ∧ (forall e w',
          block start = Raises e w' ->
          forall extra,
            Window_run code depth (fuel + extra) self w = Raises e w'))
  ∧ (Window.width win < 0 ∨ Window.height win < 0 ->
     forall budget,
       Window_run code depth budget self w
       = Raises (PygameError "Cannot set negative sized display mode") w).
Proof.
  intros Hwin block start.
  assert (Hctx : forall w0 w',
    block w0 = Returns tt w' ->
    exists win',
      windows w' !! self = Some win'
      ∧ guarded self block w0
        = (close (_WindowContext.window (Window._ctx win')) ;; mret tt)
            (set_windows (<[self := ctx_off win']> (windows w')) w')
      ∧ (forall u wf, guarded self block w0 ≠ Returns u wf)
      ∧ (_WindowContext.window (Window._ctx win') = self ->
         guarded self block w0 = Raises SystemExit (closed self win' w')
         ∧ pygame_initialized (closed self win' w') = false)).
  { intros w0 w' Hloop.
    destruct (while_active_returns _ _ _ _ _ _ Hloop) as (win' & Hwin' & _).
    pose proof (guarded_returns self block w0 w' win' Hloop Hwin') as Hg.
    exists win'. split_and!; [done|done| |].
    - intros u wf. rewrite Hg. apply close_then_not_returns.
    - intros Hself. split; [|done]. rewrite Hg, Hself.
      erewrite bind_raises;
        [|apply close_eq; cbn [windows set_windows]; apply lookup_insert_eq].
      by rewrite closed_ctx_off. }
  assert (Hexc : forall w0 e w',
    block w0 = Raises e w' -> guarded self block w0 = Raises e w').
  { intros w0 e w' Hloop. unfold guarded. by rewrite Hloop. }
  split_and!; [exact Hctx|exact Hexc| |].
  - intros Hwidth Hheight. split.
    + intros w' Hloop.
      destruct (Hctx start w' Hloop) as (win' & Hwin' & Hg & Hnot & Hself).
      assert (Hrun : forall extra,
        Window_run code depth (fuel + extra) self w = guarded self block start).
      { intros extra.
        rewrite (Window_run_eq _ _ _ _ _ _ Hwin Hwidth Hheight).
        unfold guarded. fold start.
        rewrite while_active_more by (fold block; by rewrite Hloop).
        reflexivity. }
      exists win'. split_and!; [done| | |].
      * rewrite <-(Nat.add_0_r fuel), Hrun. exact Hg.
      * intros u wf. rewrite <-(Nat.add_0_r fuel), Hrun. apply Hnot.
      * intros Hs extra. rewrite Hrun. by apply Hself.
    + intros e w' Hloop extra.
      rewrite (Window_run_eq _ _ _ _ _ _ Hwin Hwidth Hheight).
      unfold guarded. fold start.
      rewrite while_active_more by (fold block; by rewrite Hloop).
      fold block. by rewrite Hloop.
  - intros Hneg budget. exact (Window_run_refused _ _ _ _ _ _ Hwin Hneg).
Qed.

Lemma run_context_asymmetric_witness :
  (exists wf, Window_run stops_on_update 3 1 0 one_window_world
                = Raises SystemExit wf
      ∧ pygame_initialized wf = false)
  ∧ (exists wf, Window_run fails_on_draw 3 1 0 one_window_world
                  = Raises (UserError 7) wf
        ∧ pygame_initialized wf = true).
Proof.
  split.
  - destruct (run_context_asymmetric stops_on_update 3 1 0
                one_window_world one_window) as (_ & _ & Hrun & _).
    { vm_compute. reflexivity. }
    destruct Hrun as [Hnormal _]; [done|done|].
    destruct (Hnormal
                (after (while_active stops_on_update 3 1 0)
                       (entered 0 one_window one_window_world)))
      as (win' & Hwin' & _ & _ & Hraise).
    { vm_compute. reflexivity. }
    destruct (Hraise) with (extra := 0%nat) as [Hrun Hquit].
    { vm_compute in Hwin'. injection Hwin' as <-. reflexivity. }
    eexists. split; [exact Hrun|exact Hquit].
  - destruct (run_context_asymmetric fails_on_draw 3 1 0
                one_window_world one_window) as (_ & _ & Hrun & _).
    { vm_compute. reflexivity. }
    destruct Hrun as [_ Hraise]; [done|done|].
    exists (after (while_active fails_on_draw 3 1 0)
                  (entered 0 one_window one_window_world)).
    split; [|vm_compute; reflexivity].
    apply (Hraise (UserError 7) _) with (extra := 0%nat).
    vm_compute. reflexivity.
Defined.

(** ** More on the event manager *)

(** X1 — After [add_event_handler(ty, c)] a lookup by name finds [c] under
    [c.__name__] in the table of [ty]; every other name of that table and
    every table of another event type reads as before. *)
Theorem add_event_handler_lookup (em : EventManager.t) (ty ty' : EventType)
    (c : Callback) (n : string) :
  dict_get n (EventManager.handlers_of
                (EventManager.add_event_handler em ty c) ty') =
  if decide (ty' = ty ∧ n = __name__ c) then Some c
  else dict_get n (EventManager.handlers_of em ty').
Proof.
  rewrite handlers_of_add.
  destruct (decide (ty' = ty)) as [->|Hty].
  - rewrite dict_get_set.
    destruct (decide (__name__ c = n)) as [<-|Hn].
    + by rewrite decide_True.
    + rewrite decide_False; [done|]. intros [_ ->]. done.
  - rewrite decide_False; [done|]. by intros [? _].
Qed.

Lemma dict_pop_set_absent {V} (k : string) (v : V) (d : list (string * V)) :
  dict_get k d = None -> dict_pop k (dict_set k v d) = d.
Proof.
  induction d as [|[k' v'] d IH]; simpl.
  - intros _. by rewrite decide_True.
  - destruct (decide (k' = k)) as [->|Hk]; [done|].
    intros Hget. simpl. rewrite decide_False by done. by rewrite IH.
Qed.

Lemma dict_set_truthy {V} (k : string) (v : V) (d : list (string * V)) :
  dict_truthy (dict_set k v d) = true.
Proof. destruct d as [|[k' v'] d]; simpl; [done|]. by case_decide. Qed.

(** X2 — Registering a callback whose name has no slot and removing it
    again gives back the table of every event type; the manager keeps an
    entry for the event type, empty if the type had none. *)
Theorem add_remove_round_trip (em : EventManager.t) (ty : EventType)
    (c : Callback) :
  dict_get (__name__ c) (EventManager.handlers_of em ty) = None ->
  let em' := EventManager.remove_event_handler
               (EventManager.add_event_handler em ty c) ty c in
  (forall ty', EventManager.handlers_of em' ty' = EventManager.handlers_of em ty')
  ∧ EventManager.event_handlers em' !! ty
    = Some (EventManager.handlers_of em ty).
Proof.
  intros Habsent em'. split.
  - intros ty'. unfold em'. rewrite handlers_of_remove.
    destruct (decide (ty' = ty)) as [->|Hty].
    + rewrite handlers_of_add, decide_True by done.
      by apply dict_pop_set_absent.
    + by rewrite handlers_of_add, decide_False.
  - unfold em', EventManager.remove_event_handler.
    rewrite lookup_add, decide_True by done.
    rewrite dict_set_truthy. cbn [EventManager.event_handlers].
    rewrite lookup_insert_eq. f_equal. by apply dict_pop_set_absent.
Qed.

Lemma add_remove_round_trip_witness :
  let em := EventManager.add_event_handler
              (EventManager.add_event_handler EventManager.__init__
                 KEYDOWN first_function) KEYDOWN second_function in
  EventManager.handlers_of em KEYDOWN
    = [("first", first_function); ("second", second_function)]
  ∧ EventManager.handlers_of (EventManager.remove_event_handler em KEYDOWN
                                 second_function) KEYDOWN
    = [("first", first_function)]
  ∧ EventManager.event_handlers
      (EventManager.remove_event_handler
         (EventManager.add_event_handler EventManager.__init__ KEYUP
            first_function) KEYUP first_function) !! KEYUP
    = Some [].
Proof.
  split; [reflexivity|]. split.
  - apply (add_remove_round_trip
             (EventManager.add_event_handler EventManager.__init__
                KEYDOWN first_function) KEYDOWN second_function).
    reflexivity.
  - apply (add_remove_round_trip EventManager.__init__ KEYUP first_function).
    reflexivity.
Defined.



Lemma filter_all {A} (P : A -> Prop) `{!forall x, Decision (P x)} (l : list A) :
  Forall P l -> filter P l = l.
Proof.
  induction 1 as [|x l Hx Hl IH]; [done|].
  by rewrite filter_cons_True, IH.
Qed.

Lemma well_keyed_pop_values (n : string) (d : list (string * Callback)) :
  well_keyed d ->
  dict_values (dict_pop n d)
    = filter (fun v => __name__ v ≠ n) (dict_values d)
  ∧ dict_get n (dict_pop n d) = None.
Proof.
  unfold well_keyed, dict_values.
  induction d as [|[k v] d IH]; csimpl; [done|].
  intros [Hkeys Hnd]. injection Hkeys as Hk Hkeys.
  apply NoDup_cons in Hnd as [Hk' Hnd].
  destruct (decide (k = n)) as [Heq|Hne]; csimpl.
  - rewrite filter_cons_False by (intros H; apply H; congruence).
    split.
    + symmetry. apply filter_all, Forall_forall. intros v' Hv' Hname.
      apply Hk'. rewrite Heq, <-Hname, Hkeys.
      apply list_elem_of_fmap. by exists v'.
    + rewrite dict_get_to_map. apply not_elem_of_list_to_map_1. congruence.
  - rewrite filter_cons_True by congruence.
    destruct (IH (conj Hkeys Hnd)) as [-> Hget].
    split; [done|]. by rewrite decide_False.
Qed.

(** X4 — On a manager built through its two methods,
    [remove_event_handler(ty, c)] removes by name: afterwards no slot of
    [ty] carries the name of [c], the handlers of other names are kept in
    their order (whether or not the removed callback was [c] itself), and
    removing once more changes nothing. *)
Theorem remove_event_handler_by_name (ops : list EventManager.Op)
    (ty : EventType) (c : Callback) :
  let em := EventManager.run_ops ops in
  let em' := EventManager.remove_event_handler em ty c in
  dict_get (__name__ c) (EventManager.handlers_of em' ty) = None
  ∧ dict_values (EventManager.handlers_of em' ty)
    = filter (fun v => __name__ v ≠ __name__ c)
             (dict_values (EventManager.handlers_of em ty))
  ∧ EventManager.remove_event_handler em' ty c = em'.
Proof.
  cbv zeta.
  destruct (well_keyed_pop_values (__name__ c) _ (well_keyed_run_ops ops ty))
    as [Hvalues Hget].
  rewrite handlers_of_remove, decide_True by done.
  split_and!; [done|done|].
  apply remove_absent. by rewrite handlers_of_remove, decide_True.
Qed.

(** ** More on dispatch *)

Lemma for_values_unfold call self e used n i :
  for_values call self e used n i =
  (handlers ← current_handlers self (Event.type e);
   if decide (length handlers = used) then
     match n with
     | O => mret tt
     | S n' =>
         match dict_values handlers !! i with
         | Some callback =>
             args ← event_mapping e;
             call callback args ;;
             for_values call self e used n' (S i)
         | None => mret tt
         end
     end
   else raise (RuntimeError "dictionary changed size during iteration")).
Proof. destruct n; reflexivity. Qed.

(** Reading the arguments off an event changes nothing. *)
Lemma event_mapping_pure e w :
  (exists args, event_mapping e w = Returns args w)
  ∨ (exists ex, event_mapping e w = Raises ex w).
Proof.
  unfold event_mapping, event_attr, unpack, mbind, M_bind,
    pygame.mouse_get_pos, pygame.key_get_mods, mret, M_ret, raise.
  destruct (Event.type e);
    repeat (match goal with
            | |- context [match ?m !! ?k with _ => _ end] =>
                destruct (m !! k) as [[]|]
            end);
    eauto.
Qed.

Lemma dispatch_no_handlers call self e w win :
  windows w !! self = Some win ->
  EventManager.handlers_of (Window.event_manager win) (Event.type e) = [] ->
  dispatch call self e w = Returns tt w.
Proof.
  intros Hwin Hnone. unfold dispatch.
  rewrite (bind_returns _ _ _ _ _ (current_handlers_eq _ _ _ _ Hwin)).
  by rewrite Hnone.
Qed.

(** X5 — [handle_events] empties the queue, and events of a type without
    handlers (no table, or an empty one) are dropped: if no pending event
    has a handler, the call returns and only the queue has changed,
    whatever the callables of the program do. *)
Theorem unhandled_events_dropped (call : Callback -> list PyVal -> M unit)
    (self : nat) (w : World) (win : Window.t) :
  windows w !! self = Some win ->
  Forall (fun e => EventManager.handlers_of (Window.event_manager win)
                     (Event.type e) = []) (event_queue w) ->
  handle_events call self w = Returns tt (set_event_queue [] w).
Proof.
  intros Hwin Hall. unfold handle_events.
  erewrite bind_returns by reflexivity.
  assert (Hwin' : windows (set_event_queue [] w) !! self = Some win) by done.
  revert Hwin'. generalize (set_event_queue [] w) as w'.
  induction Hall as [|e es He Hes IH]; intros w' Hwin'; [done|].
  cbn [for_each].
  rewrite (bind_returns _ _ _ _ _ (dispatch_no_handlers _ _ _ _ _ Hwin' He)).
  by apply IH.
Qed.

Lemma unhandled_events_dropped_witness :
  let w := after (pygame.event_post
                    {| Event.type := USEREVENT 1; Event.dict := ∅ |})
                 one_window_world in
  event_queue w = [{| Event.type := USEREVENT 1; Event.dict := ∅ |}]
  ∧ handle_events (invoke base_classes 3) 0 w = Returns tt one_window_world.
Proof.
  intros w. split; [reflexivity|].
  rewrite (unhandled_events_dropped _ 0 w one_window).
  - reflexivity.
  - vm_compute. reflexivity.
  - repeat constructor.
Defined.

Lemma bind_assoc {A B C} (m : M A) (f : A -> M B) (g : B -> M C) w :
  ((m ≫= f) ≫= g) w = (m ≫= (fun a => f a ≫= g)) w.
Proof. unfold mbind, M_bind. by destruct (m w). Qed.

Lemma bind_congr {A B} (m : M A) (f g : A -> M B) w :
  (forall a w', m w = Returns a w' -> f a w' = g a w') ->
  (m ≫= f) w = (m ≫= g) w.
Proof. unfold mbind, M_bind. destruct (m w); auto. Qed.

Lemma frames_windows_call call e callback :
  keeps_windows call ->
  frames_windows (args ← event_mapping e; call callback args).
Proof.
  intros Hcall w. unfold mbind, M_bind.
  destruct (event_mapping_pure e w) as [[args ->]|[ex ->]]; [|done].
  apply Hcall.
Qed.

Lemma frames_windows_for_each {A} (xs : list A) (body : A -> M unit) :
  (forall x, frames_windows (body x)) ->
  frames_windows (for_each xs body).
Proof.
  intros Hbody. induction xs as [|x xs IH]; intros w; [done|].
  cbn [for_each]. unfold mbind, M_bind.
  pose proof (Hbody x w) as Hx.
  destruct (body x w) as [[] w1|ex w1|]; [|done..].
  pose proof (IH w1) as Hxs.
  destruct (for_each xs body w1); congruence.
Qed.

Lemma for_values_stable call self e win used n : forall i w,
  keeps_windows call ->
  windows w !! self = Some win ->
  let handlers := EventManager.handlers_of (Window.event_manager win)
                                            (Event.type e) in
  used = length handlers ->
  (i + n = used)%nat ->
  for_values call self e used n i w =
  for_each (drop i (dict_values handlers))
           (fun callback => args ← event_mapping e; call callback args) w.
Proof.
  induction n as [|n IH]; intros i w Hcall Hwin handlers Hused Hlen;
    rewrite for_values_unfold;
    rewrite (bind_returns _ _ _ _ _ (current_handlers_eq _ _ _ _ Hwin));
    fold handlers; rewrite decide_True by done.
  - rewrite drop_ge; [done|]. unfold dict_values. rewrite length_fmap. lia.
  - destruct (dict_values handlers !! i) as [callback|] eqn:Hi.
    + rewrite (drop_S _ _ _ Hi). cbn [for_each]. rewrite bind_assoc.
      destruct (event_mapping_pure e w) as [[args Hm]|[ex Hm]].
      * rewrite !(bind_returns _ _ _ _ _ Hm).
        apply bind_congr. intros [] w1 Hrun.
        apply IH; [done| |done|lia].
        pose proof (Hcall callback args w) as Hframe.
        rewrite Hrun in Hframe. by rewrite Hframe.
      * by rewrite !(bind_raises _ _ _ _ _ Hm).
    + apply lookup_ge_None in Hi. unfold dict_values in Hi.
      rewrite length_fmap in Hi. lia.
Qed.

Lemma dispatch_stable call self e win w :
  keeps_windows call ->
  windows w !! self = Some win ->
  dispatch call self e w = call_handlers call win e w.
Proof.
  intros Hcall Hwin. unfold dispatch, call_handlers.
  rewrite (bind_returns _ _ _ _ _ (current_handlers_eq _ _ _ _ Hwin)).
  destruct (EventManager.handlers_of _ _) as [|slot slots] eqn:Htable; [done|].
  cbn [dict_truthy].
  rewrite (for_values_stable call self e win _ _ 0 w Hcall Hwin);
    rewrite ?Htable; done.
Qed.

(** X6 — When running a handler never changes the store of windows,
    [handle_events] takes the pending events in queue order and, for each
    of them, calls the handlers of its type in the order of their table,
    each with the arguments read off the event; the first exception ends
    the call. *)
Theorem dispatch_order (call : Callback -> list PyVal -> M unit)
    (self : nat) (w : World) (win : Window.t) :
  keeps_windows call ->
  windows w !! self = Some win ->
  handle_events call self w
  = for_each (event_queue w) (call_handlers call win) (set_event_queue [] w).
Proof.
  intros Hcall Hwin. unfold handle_events.
  erewrite bind_returns by reflexivity.
  assert (Hwin' : windows (set_event_queue [] w) !! self = Some win) by done.
  revert Hwin'. generalize (set_event_queue [] w) as w'.
  induction (event_queue w) as [|e es IH]; intros w' Hwin'; [done|].
  cbn [for_each]. unfold mbind, M_bind.
  rewrite (dispatch_stable _ _ _ _ _ Hcall Hwin').
  assert (Hframe : frames_windows (call_handlers call win e)).
  { apply frames_windows_for_each. intros cb.
    by apply frames_windows_call. }
  specialize (Hframe w').
  destruct (call_handlers call win e w') as [[] w1|ex w1|]; [|done..].
  apply IH. by rewrite Hframe.
Qed.

Lemma keeps_windows_recorder : keeps_windows recorder.
Proof. intros c args w. reflexivity. Qed.

Lemma dispatch_order_witness :
  let w := after (Window_add_event_handler 0 KEYDOWN first_function ;;
                  Window_add_event_handler 0 KEYDOWN second_function ;;
                  pygame.event_post return_key ;;
                  pygame.event_post quit_event) one_window_world in
  exists w',
    handle_events recorder 0 w = Returns tt w'
    ∧ ((fun e => (Event.dict e !! "called", Event.type e)) <$> event_queue w')
      = [(Some (VStr "on_key_press"), USEREVENT 2);
         (Some (VStr "first"), USEREVENT 2);
         (Some (VStr "second"), USEREVENT 2);
         (Some (VStr "close"), USEREVENT 0)].
Proof.
  intros w.
  pose proof (dispatch_order recorder 0 w
                (default one_window (windows w !! 0%nat))
                keeps_windows_recorder) as Horder.
  eexists. split.
  - rewrite Horder by (vm_compute; reflexivity). vm_compute. reflexivity.
  - vm_compute. reflexivity.
Defined.

Lemma event_mapping_key_missing e w :
  Event.type e = KEYDOWN ∨ Event.type e = KEYUP ->
  Event.dict e !! "key" = None ->
  event_mapping e w = Raises (AttributeError "key") w.
Proof.
  intros Hty Hkey. unfold event_mapping, event_attr, mbind, M_bind.
  destruct Hty as [-> | ->]; by rewrite Hkey.
Qed.

(** X7 — A key event that carries no [key] attribute makes dispatch raise
    [AttributeError] before any handler is called, leaving the state as it
    is; when the event's type has no handler the attributes are not looked
    at and the event is dropped. *)
Theorem key_event_without_key (call : Callback -> list PyVal -> M unit)
    (self : nat) (w : World) (win : Window.t) (e : Event.t) :
  windows w !! self = Some win ->
  Event.type e = KEYDOWN ∨ Event.type e = KEYUP ->
  Event.dict e !! "key" = None ->
  dispatch call self e w =
  if dict_truthy (EventManager.handlers_of (Window.event_manager win)
                                           (Event.type e))
  then Raises (AttributeError "key") w
  else Returns tt w.
Proof.
  intros Hwin Hty Hkey. unfold dispatch.
  rewrite (bind_returns _ _ _ _ _ (current_handlers_eq _ _ _ _ Hwin)).
  destruct (EventManager.handlers_of _ _) as [|[n c] slots] eqn:Htable;
    [done|].
  cbn [dict_truthy]. rewrite for_values_unfold.
  rewrite (bind_returns _ _ _ _ _ (current_handlers_eq _ _ _ _ Hwin)).
  rewrite Htable, decide_True by done.
  cbn [length dict_values fmap list_fmap lookup list_lookup snd].
  by rewrite (bind_raises _ _ _ _ _ (event_mapping_key_missing _ w Hty Hkey)).
Qed.

Lemma key_event_without_key_witness :
  let e := {| Event.type := KEYDOWN; Event.dict := ∅ |} in
  dispatch (invoke base_classes 3) 0 e one_window_world
  = Raises (AttributeError "key") one_window_world.
Proof.
  intros e.
  rewrite (key_event_without_key _ 0 one_window_world one_window e).
  - reflexivity.
  - vm_compute. reflexivity.
  - by left.
  - reflexivity.
Defined.

(** X8 — The loop over the handlers of an event looks at the table as it
    is now: when the first handler returns and has changed the number of
    slots of that table (it registered or removed a handler of the event's
    type), dispatch raises the [RuntimeError] of a dict that changed size
    during iteration, in the state the handler left. *)
Theorem handler_resizing_table (call : Callback -> list PyVal -> M unit)
    (self : nat) (w w' : World) (win win' : Window.t) (e : Event.t)
    (n : string) (callback : Callback) (rest : list (string * Callback))
    (args : list PyVal) :
  windows w !! self = Some win ->
  EventManager.handlers_of (Window.event_manager win) (Event.type e)
    = (n, callback) :: rest ->
  event_mapping e w = Returns args w ->
  call callback args w = Returns tt w' ->
  windows w' !! self = Some win' ->
  length (EventManager.handlers_of (Window.event_manager win') (Event.type e))
    ≠ S (length rest) ->
  dispatch call self e w
  = Raises (RuntimeError "dictionary changed size during iteration") w'.
Proof.
  intros Hwin Htable Hargs Hcall Hwin' Hsize. unfold dispatch.
  rewrite (bind_returns _ _ _ _ _ (current_handlers_eq _ _ _ _ Hwin)).
  rewrite Htable. cbn [dict_truthy length]. rewrite for_values_unfold.
  rewrite (bind_returns _ _ _ _ _ (current_handlers_eq _ _ _ _ Hwin)).
  rewrite Htable, decide_True by done.
  cbn [dict_values fmap list_fmap lookup list_lookup snd].
  rewrite (bind_returns _ _ _ _ _ Hargs).
  rewrite (bind_returns _ _ _ _ _ Hcall).
  rewrite for_values_unfold.
  rewrite (bind_returns _ _ _ _ _ (current_handlers_eq _ _ _ _ Hwin')).
  by rewrite decide_False.
Qed.

Lemma handler_resizing_table_witness :
  let w := after (Window_add_event_handler 0 (USEREVENT 1) first_function)
                 one_window_world in
  let e := {| Event.type := USEREVENT 1; Event.dict := ∅ |} in
  exists w',
    dispatch (invoke registers_second 3) 0 e w
    = Raises (RuntimeError "dictionary changed size during iteration") w'.
Proof.
  intros w e.
  exists (after (Window_add_event_handler 0 (USEREVENT 1) second_function) w).
  apply (handler_resizing_table _ 0 w _
           (default one_window (windows w !! 0%nat))
           (default one_window
              (windows (after (Window_add_event_handler 0 (USEREVENT 1)
                                 second_function) w) !! 0%nat))
           e "first" first_function [] []);
    try (vm_compute; reflexivity).
  vm_compute. discriminate.
Defined.

(** ** More on the loop *)






Lemma invoke_named code depth c args :
  __name__ c ≠ "close" -> __name__ c ≠ "__on_mouse_motion" ->
  invoke code (S depth) c args = code c args.
Proof.
  intros Hclose Hmotion. cbn [invoke].
  destruct (__self__ c); [|done..].
  by rewrite !decide_False.
Qed.

Lemma set_event_queue_same w : event_queue w = [] -> set_event_queue [] w = w.
Proof. destruct w. cbn. by intros ->. Qed.

(** A hook of the base classes that is called without arguments. *)
Lemma base_classes_hook c w :
  __name__ c = "on_update" ∨ __name__ c = "on_draw" ->
  base_classes c [] w = Returns tt w.
Proof. unfold base_classes. by intros [-> | ->]. Qed.

(** One turn with the hooks of the base classes and no event pending, up
    to the tick of the clock. *)
Lemma loop_body_base_classes (depth self : nat) (w : World) (win : Window.t) :
  windows w !! self = Some win ->
  is_Some (Window._screen win) ->
  frame_hooks_named self win ->
  event_queue w = [] ->
  loop_body base_classes (S depth) self w
  = (fps ← framerate self; pygame.display (Tick fps))
      (set_display_calls
         (display_calls w ++ [Fill (Window.background_color win); Flip]) w).
Proof.
  intros Hwin [surface Hscreen] [Hupdate Hdraw] Hqueue. unfold loop_body.
  assert (Hevents : handle_events (invoke base_classes (S depth)) self w
                    = Returns tt w).
  { unfold handle_events. erewrite bind_returns by reflexivity.
    rewrite Hqueue. cbn [for_each]. unfold mret, M_ret.
    by rewrite set_event_queue_same. }
  rewrite (bind_returns _ _ _ _ _ Hevents).
  assert (Hclear : clear self w
                   = Returns tt (set_display_calls
                       (display_calls w ++ [Fill (Window.background_color win)])
                       w)).
  { unfold clear. rewrite (bind_returns _ _ _ _ _ (deref_eq _ _ _ Hwin)).
    by rewrite Hscreen. }
  rewrite (bind_returns _ _ _ _ _ Hclear).
  erewrite bind_returns; cycle 1.
  { erewrite bind_returns by (by apply deref_eq).
    rewrite invoke_named by (rewrite Hupdate; discriminate).
    apply base_classes_hook. by left. }
  erewrite bind_returns; cycle 1.
  { erewrite bind_returns by (by apply deref_eq).
    rewrite invoke_named by (rewrite Hdraw; discriminate).
    apply base_classes_hook. by right. }
  erewrite bind_returns by reflexivity.
  unfold set_display_calls. cbn. by rewrite <-!app_assoc.
Qed.

Lemma framerate_eq self w win rate :
  windows w !! self = Some win ->
  Window.update_rate win = Some (Some rate) ->
  Qnum rate ≠ 0 ->
  framerate self w = Returns (Qdiv 1 rate) w.
Proof.
  intros Hwin Hrate Hnz. unfold framerate.
  rewrite (bind_returns _ _ _ _ _ (deref_eq _ _ _ Hwin)), Hrate.
  by rewrite decide_False.
Qed.

Lemma loop_body_ticks (depth self : nat) (w : World) (win : Window.t) rate :
  windows w !! self = Some win ->
  is_Some (Window._screen win) ->
  frame_hooks_named self win ->
  Window.update_rate win = Some (Some rate) ->
  Qnum rate ≠ 0 ->
  event_queue w = [] ->
  loop_body base_classes (S depth) self w
  = Returns tt
      (set_display_calls
         (display_calls w
            ++ [Fill (Window.background_color win); Flip; Tick (Qdiv 1 rate)])
         w).
Proof.
  intros Hwin Hscreen Hhooks Hrate Hnz Hqueue.
  rewrite (loop_body_base_classes _ _ _ _ Hwin Hscreen Hhooks Hqueue).
  erewrite bind_returns by (by eapply framerate_eq).
  unfold pygame.display, modify, set_display_calls. cbn.
  by rewrite <-!app_assoc.
Qed.

(** X11 — One turn of the loop on a window whose hooks are the empty
    methods of the base classes and whose update rate is a number other
    than zero, with no event pending: the window is cleared with its
    background colour, the frame is flipped and the clock ticks at
    [1 / update_rate], in this order, and nothing else changes. *)
Theorem default_frame (depth self : nat) (w : World) (win : Window.t)
    (rate : Q) :
  windows w !! self = Some win ->
  is_Some (Window._screen win) ->
  frame_hooks_named self win ->
  Window.update_rate win = Some (Some rate) ->
  Qnum rate ≠ 0 ->
  event_queue w = [] ->
  exists w',
    loop_body base_classes (S depth) self w = Returns tt w'
    ∧ display_calls w'
      = (display_calls w
           ++ [Fill (Window.background_color win); Flip;
               Tick (Qdiv 1 rate)])%list
    ∧ windows w' = windows w
    ∧ event_queue w' = []
    ∧ _window w' = _window w
    ∧ pygame_initialized w' = pygame_initialized w
    ∧ caption w' = caption w
    ∧ timers w' = timers w.
Proof.
  intros Hwin Hscreen Hhooks Hrate Hnz Hqueue. eexists.
  split; [by eapply loop_body_ticks|].
  by split_and!.
Qed.

Lemma default_frame_witness :
  let w := after (update 0 (Window.set__screen (Some (800, 600))))
                 one_window_world in
  exists w',
    loop_body base_classes 3 0 w = Returns tt w'
    ∧ display_calls w'
      = [Fill (RGB 255 255 255); Flip; Tick (Qdiv 1 default_update_rate)].
Proof.
  intros w.
  destruct (default_frame 2 0 w (default one_window (windows w !! 0%nat))
              default_update_rate)
    as (w' & Hframe & Hcalls & _).
  - vm_compute. reflexivity.
  - vm_compute. by eexists.
  - split; vm_compute; reflexivity.
  - reflexivity.
  - discriminate.
  - reflexivity.
  - exists w'. split; [exact Hframe|]. rewrite Hcalls. reflexivity.
Defined.

Lemma while_active_goes_on depth self win rate fuel : forall w,
  windows w !! self = Some win ->
  running win ->
  frame_hooks_named self win ->
  Window.update_rate win = Some (Some rate) ->
  Qnum rate ≠ 0 ->
  event_queue w = [] ->
  while_active base_classes (S depth) fuel self w = Undefined.
Proof.
  induction fuel as [|fuel IH];
    intros w Hwin [Hscreen Hactive] Hhooks Hrate Hnz Hqueue;
    rewrite while_active_unfold;
    rewrite (bind_returns _ _ _ _ _ (deref_eq _ _ _ Hwin)), Hactive;
    [done|].
  rewrite (bind_returns _ _ _ _ _
             (loop_body_ticks _ _ _ _ _ Hwin Hscreen Hhooks Hrate Hnz Hqueue)).
  by apply IH.
Qed.

(** X12 — On a window whose size is not negative, whose update rate is a
    number other than zero and whose hooks are the empty methods of the
    base classes, with no event pending, the loop of [run] goes on: no
    budget of turns is enough for [run] to produce a result. *)
Theorem run_goes_on_without_events (depth fuel self : nat) (w : World)
    (win : Window.t) (rate : Q) :
  windows w !! self = Some win ->
  0 <= Window.width win -> 0 <= Window.height win ->
  Window.update_rate win = Some (Some rate) ->
  Qnum rate ≠ 0 ->
  frame_hooks_named self win ->
  event_queue w = [] ->
  Window_run base_classes (S depth) fuel self w = Undefined.
Proof.
  intros Hwin Hwidth Hheight Hrate Hnz Hhooks Hqueue.
  rewrite (Window_run_eq _ _ _ _ _ _ Hwin Hwidth Hheight). unfold guarded.
  rewrite (while_active_goes_on depth self
             (ctx_on (Window.set__screen (Some (Window.size win)) win)) rate);
    [done| |by split; [eexists|]|done|done|done|done].
  unfold entered. cbn [windows set_windows]. apply lookup_insert_eq.
Qed.

Lemma run_goes_on_without_events_witness :
  Window_run base_classes 3 50 0 one_window_world = Undefined.
Proof.
  apply (run_goes_on_without_events 2 50 0 one_window_world one_window
           default_update_rate).
  - vm_compute. reflexivity.
  - vm_compute. discriminate.
  - vm_compute. discriminate.
  - reflexivity.
  - discriminate.
  - split; vm_compute; reflexivity.
  - reflexivity.
Defined.

(** X20 — A focus event on a window with the handlers of the base classes
    fails: [on_focus] and [on_blur] take the event as their argument, and
    the dispatch loop calls the handlers of these two event types without
    arguments, so the call raises [TypeError], in the state in which the
    dispatch began. *)
Theorem focus_event_raises (depth self : nat) (w : World) (win : Window.t)
    (e : Event.t) (attr : string) :
  windows w !! self = Some win ->
  (Event.type e = WINDOWFOCUSGAINED ∧ attr = "on_focus")
  ∨ (Event.type e = WINDOWFOCUSLOST ∧ attr = "on_blur") ->
  EventManager.handlers_of (Window.event_manager win) (Event.type e)
    = [(attr, {| __self__ := WindowObj self; __name__ := attr |})] ->
  event_mapping e w = Returns [] w
  ∧ dispatch (invoke base_classes (S depth)) self e w = Raises TypeError w.
Proof.
  intros Hwin Hty Htable.
  assert (Hargs : event_mapping e w = Returns [] w).
  { unfold event_mapping. by destruct Hty as [[-> _]|[-> _]]. }
  split; [exact Hargs|]. unfold dispatch.
  rewrite (bind_returns _ _ _ _ _ (current_handlers_eq _ _ _ _ Hwin)).
  rewrite Htable. cbn [dict_truthy length]. rewrite for_values_unfold.
  rewrite (bind_returns _ _ _ _ _ (current_handlers_eq _ _ _ _ Hwin)).
  rewrite Htable, decide_True by done.
  cbn [dict_values fmap list_fmap lookup list_lookup snd].
  rewrite (bind_returns _ _ _ _ _ Hargs).
  apply bind_raises.
  rewrite invoke_named by (destruct Hty as [[_ ->]|[_ ->]]; discriminate).
  unfold base_classes. by destruct Hty as [[_ ->]|[_ ->]].
Qed.

Lemma focus_event_raises_witness :
  dispatch (invoke base_classes 3) 0 focus_event one_window_world
    = Raises TypeError one_window_world
  ∧ exists w',
      Window_run base_classes 3 1 0
        (after (pygame.event_post focus_event) one_window_world)
      = Raises TypeError w'
      ∧ pygame_initialized w' = true.
Proof.
  split.
  - apply (focus_event_raises 2 0 one_window_world one_window focus_event
             "on_focus").
    + vm_compute. reflexivity.
    + left. by split.
    + vm_compute. reflexivity.
  - eexists. split; vm_compute; reflexivity.
Defined.

(** X21 — One turn of the loop on a window whose update rate cannot be
    divided by: with no event pending and the hooks of the base classes,
    the window is cleared and the frame is flipped, and then the turn
    raises instead of ticking the clock, [TypeError] for the rate [None],
    [ZeroDivisionError] for a rate of zero and [AttributeError] on an
    object that [__init__] left before the rate was assigned. *)
Theorem frame_without_rate (depth self : nat) (w : World) (win : Window.t) :
  windows w !! self = Some win ->
  is_Some (Window._screen win) ->
  frame_hooks_named self win ->
  event_queue w = [] ->
  let w' := set_display_calls
              (display_calls w ++ [Fill (Window.background_color win); Flip])
              w in
  (Window.update_rate win = Some None ->
     loop_body base_classes (S depth) self w = Raises TypeError w')
  ∧ (forall rate,
       Window.update_rate win = Some (Some rate) -> Qnum rate = 0 ->
       loop_body base_classes (S depth) self w = Raises ZeroDivisionError w')
  ∧ (Window.update_rate win = None ->
     loop_body base_classes (S depth) self w
     = Raises (AttributeError "update_rate") w').
Proof.
  intros Hwin Hscreen Hhooks Hqueue w'.
  pose proof (loop_body_base_classes depth self w win Hwin Hscreen Hhooks Hqueue)
    as Hbody. fold w' in Hbody.
  assert (Hwin' : windows w' !! self = Some win) by exact Hwin.
  split_and!.
  - intros Hrate. rewrite Hbody. apply bind_raises. unfold framerate.
    by rewrite (bind_returns _ _ _ _ _ (deref_eq _ _ _ Hwin')), Hrate.
  - intros rate Hrate Hzero. rewrite Hbody. apply bind_raises. unfold framerate.
    rewrite (bind_returns _ _ _ _ _ (deref_eq _ _ _ Hwin')), Hrate.
    by rewrite decide_True.
  - intros Hrate. rewrite Hbody. apply bind_raises. unfold framerate.
    by rewrite (bind_returns _ _ _ _ _ (deref_eq _ _ _ Hwin')), Hrate.
Qed.

Lemma frame_without_rate_witness :
  loop_body base_classes 3 0 still_window_world
  = Raises ZeroDivisionError
      (set_display_calls [Fill (RGB 255 255 255); Flip] still_window_world).
Proof.
  destruct (frame_without_rate 2 0 still_window_world
              (default one_window (windows still_window_world !! 0%nat)))
    as (_ & Hzero & _).
  - vm_compute. reflexivity.
  - vm_compute. by eexists.
  - split; vm_compute; reflexivity.
  - reflexivity.
  - apply (Hzero (Qmake 0 1)); reflexivity.
Defined.

(** ** More on windows and views *)

Lemma blank_handlers self width height ty :
  EventManager.handlers_of
    (Window.event_manager (Window.blank self width height)) ty = [].
Proof.
  unfold EventManager.handlers_of, Window.blank, EventManager.__init__.
  cbn [Window.event_manager EventManager.event_handlers].
  by rewrite lookup_empty.
Qed.

(** X13 — [Window(width, height, title)] with a string title returns a new
    reference and leaves a window whose registry has, for each of the
    twelve built-in event types, exactly one slot, holding the window's
    own method under the method's name, and no slot for any other type;
    no handler attribute is assigned on the instance, the surface is not
    acquired, the run-state is off, the caption is the title, and the
    objects that existed are untouched. *)
Theorem new_window_registry (width height : Z) (title : string)
    (update_rate : option Q) (w : World) :
  let self := fresh (dom (windows w)) in
  exists w' win,
    Window__init__ width height (Some title) update_rate w = Returns self w'
    ∧ windows w' !! self = Some win
    ∧ (forall ty,
         EventManager.handlers_of (Window.event_manager win) ty =
         match registered ty with
         | Some attr =>
             [(Window.function_name attr,
               {| __self__ := WindowObj self;
                  __name__ := Window.function_name attr |})]
         | None => []
         end)
    ∧ Window.__dict__ win = ∅
    ∧ Window._screen win = None
    ∧ _WindowContext.active (Window._ctx win) = false
    ∧ Window.size win = (width, height)
    ∧ caption w' = title
    ∧ (forall r, r ≠ self -> windows w' !! r = windows w !! r)
    ∧ Window.update_rate win = Some update_rate.
Proof.
  intros self. eexists _, _. split; [apply Window__init__eq|].
  split; [cbn [windows set_windows]; apply lookup_insert_eq|].
  split_and!;
    [|reflexivity|reflexivity|reflexivity|reflexivity|reflexivity| |reflexivity].
  - intros ty. rewrite handlers_register_events.
    change (Window.event_manager (Window.set_update_rate _ ?b))
      with (Window.event_manager b).
    rewrite blank_handlers.
    destruct (registered ty) as [attr|]; [|reflexivity].
    unfold Window.getattr, Window.blank. cbn [Window.__dict__ Window.set_update_rate].
    rewrite lookup_empty. reflexivity.
  - intros r Hr. cbn [windows set_windows set_caption_field set__window].
    by apply lookup_insert_ne.
Qed.

Lemma new_window_registry_witness :
  exists w' win,
    Window__init__ 640 480 (Some "two") (Some default_update_rate) one_window_world = Returns 1%nat w'
    ∧ windows w' !! 1%nat = Some win
    ∧ EventManager.handlers_of (Window.event_manager win) QUIT
      = [("close", close_callback 1)]
    ∧ EventManager.handlers_of (Window.event_manager win) (USEREVENT 1) = []
    ∧ windows w' !! 0%nat = windows one_window_world !! 0%nat.
Proof.
  destruct (new_window_registry 640 480 "two" (Some default_update_rate)
              one_window_world)
    as (w' & win & Hinit & Hwin & Htable & _ & _ & _ & _ & _ & Hother & _).
  exists w', win.
  split_and!; [exact Hinit|exact Hwin|exact (Htable QUIT)
              |exact (Htable (USEREVENT 1))|].
  apply Hother. discriminate.
Defined.

Lemma Window_ext (w1 w2 : Window.t) :
  Window.height w1 = Window.height w2 ->
  Window.width w1 = Window.width w2 ->
  Window._screen w1 = Window._screen w2 ->
  Window._background_color w1 = Window._background_color w2 ->
  Window.event_manager w1 = Window.event_manager w2 ->
  Window.active w1 = Window.active w2 ->
  Window._ctx w1 = Window._ctx w2 ->
  Window.update_rate w1 = Window.update_rate w2 ->
  Window.__dict__ w1 = Window.__dict__ w2 ->
  w1 = w2.
Proof. destruct w1, w2. cbn. by intros -> -> -> -> -> -> -> -> ->. Qed.

Lemma foldl_setattr_fields (f : string -> Callback) (l : list string) w :
  let w' := foldl (fun w name => Window.setattr name (f name) w) w l in
  Window.height w' = Window.height w
  ∧ Window.width w' = Window.width w
  ∧ Window._screen w' = Window._screen w
  ∧ Window._background_color w' = Window._background_color w
  ∧ Window.active w' = Window.active w
  ∧ Window._ctx w' = Window._ctx w
  ∧ Window.update_rate w' = Window.update_rate w.
Proof.
  revert w. induction l as [|n l IH]; intros w; [done|].
  cbn [foldl]. cbv zeta.
  destruct (IH (Window.setattr n (f n) w))
    as (-> & -> & -> & -> & -> & -> & ->).
  done.
Qed.

Lemma register_events_fields self w :
  let w' := Window.__register_events self w in
  Window.height w' = Window.height w
  ∧ Window.width w' = Window.width w
  ∧ Window._screen w' = Window._screen w
  ∧ Window._background_color w' = Window._background_color w
  ∧ Window.active w' = Window.active w
  ∧ Window._ctx w' = Window._ctx w
  ∧ Window.update_rate w' = Window.update_rate w.
Proof.
  cbv zeta. unfold Window.__register_events.
  match goal with
  | |- context [Window.set_event_manager ?em _] => generalize em
  end.
  intros em. by split_and!.
Qed.

Lemma register_callers_fields v w :
  let w' := View.__register_callers v w in
  Window.height w' = Window.height w
  ∧ Window.width w' = Window.width w
  ∧ Window._screen w' = Window._screen w
  ∧ Window._background_color w' = Window._background_color w
  ∧ Window.active w' = Window.active w
  ∧ Window._ctx w' = Window._ctx w
  ∧ Window.update_rate w' = Window.update_rate w.
Proof.
  cbv zeta. unfold View.__register_callers.
  destruct (register_events_fields (View.window v)
              (foldl (fun w name => Window.setattr name (View.method v name) w)
                     w View.callers))
    as (-> & -> & -> & -> & -> & -> & ->).
  apply foldl_setattr_fields.
Qed.

(** X14 — Registering the events of a window twice is the same as
    registering them once: a re-registration with unchanged handler
    attributes leaves the window as it is. *)
Theorem register_events_idempotent (self : nat) (win : Window.t) :
  Window.__register_events self (Window.__register_events self win)
  = Window.__register_events self win.
Proof.
  pose proof (register_events_fields self (Window.__register_events self win))
    as (H1 & H2 & H3 & H4 & H5 & H6 & H7).
  apply Window_ext; [done|done|done|done| |done|done|done|].
  2: by rewrite !dict_register_events.
  apply EventManager_eq. intros ty.
  rewrite (lookup_register_events self (Window.__register_events self win)).
  rewrite handlers_register_events, lookup_register_events.
  destruct (registered ty) as [attr|]; [|reflexivity].
  rewrite !getattr_attr_of, dict_register_events.
  rewrite dict_set_set. reflexivity.
Qed.

(** X15 — Between views whose handlers go by the same names, the last
    activation wins completely: registering the callers of a view [B] on a
    window on which a view [A] was registered before gives exactly the
    window that registering [B] alone gives, so the activation does not
    depend on which of them was active before it, and activating the same
    view twice is activating it once. *)
Theorem last_activation_wins (A B : View.t) (win : Window.t) :
  same_names A B ->
  View.__register_callers B (View.__register_callers A win)
  = View.__register_callers B win
  ∧ View.__register_callers B (View.__register_callers B win)
    = View.__register_callers B win.
Proof.
  assert (Hwins : forall A B, same_names A B ->
    View.__register_callers B (View.__register_callers A win)
    = View.__register_callers B win).
  { clear A B. intros A B Hnames.
    pose proof (register_callers_fields B (View.__register_callers A win))
      as (HB1 & HB2 & HB3 & HB4 & HB5 & HB6 & HB7).
    pose proof (register_callers_fields A win)
      as (HA1 & HA2 & HA3 & HA4 & HA5 & HA6 & HA7).
    pose proof (register_callers_fields B win)
      as (H1 & H2 & H3 & H4 & H5 & H6 & H7).
    apply Window_ext; [congruence|congruence|congruence|congruence|
                      |congruence|congruence|congruence|].
    - apply EventManager_eq. intros ty.
      rewrite !lookup_register_callers, !handlers_register_callers.
      rewrite !dict_register_callers, !bind_callers_bind_callers.
      destruct (registered ty) as [attr|] eqn:Hreg; [|reflexivity].
      apply registered_registrations in Hreg. cbv zeta. f_equal.
      rewrite (name_attr_of_bind_callers (View.window A) (View.window B) A B
                 _ ty attr Hnames Hreg).
      rewrite dict_set_set. reflexivity.
    - rewrite !dict_register_callers, bind_callers_bind_callers. reflexivity. }
  intros Hnames. split; [by apply Hwins|].
  apply Hwins. by intros ty attr _ _.
Qed.

Lemma last_activation_wins_witness :
  View.__register_callers view2 (View.__register_callers view1 one_window)
  = View.__register_callers view2 one_window.
Proof.
  apply (last_activation_wins view1 view2 one_window).
  by apply same_names_def.
Defined.

Lemma Window__init__returns width height title update_rate w self w' :
  Window__init__ width height title update_rate w = Returns self w' ->
  exists t, title = Some t ∧ self = fresh (dom (windows w))
    ∧ w' = set_windows
             (<[self := Window.__register_events self
                          (Window.set_update_rate update_rate
                             (Window.blank self width height))]> (windows w))
             (set_caption_field t (set__window (Some self) w)).
Proof.
  destruct title as [t|].
  - rewrite Window__init__eq. intros [= <- <-]. by exists t.
  - unfold Window__init__, allocate, mbind, M_bind. cbn. discriminate.
Qed.

(** X16 — Building a second window gives a reference different from the
    first; the second window becomes the active one, and the first stays
    in the store exactly as it was. *)
Theorem second_window (width1 height1 width2 height2 : Z)
    (title1 title2 : option string) (update_rate1 update_rate2 : option Q)
    (w w1 w2 : World) (first second : nat) :
  Window__init__ width1 height1 title1 update_rate1 w = Returns first w1 ->
  Window__init__ width2 height2 title2 update_rate2 w1 = Returns second w2 ->
  first ≠ second
  ∧ get_window w1 = Returns first w1
  ∧ get_window w2 = Returns second w2
  ∧ is_Some (windows w1 !! first)
  ∧ windows w2 !! first = windows w1 !! first.
Proof.
  intros (t1 & _ & -> & ->)%Window__init__returns
         (t2 & _ & -> & ->)%Window__init__returns.
  cbn [windows set_windows set_caption_field set__window].
  assert (Hin : fresh (dom (windows w)) ∈
                dom (<[fresh (dom (windows w)) :=
                         Window.__register_events (fresh (dom (windows w)))
                           (Window.set_update_rate update_rate1
                              (Window.blank (fresh (dom (windows w)))
                                 width1 height1))]> (windows w))).
  { apply elem_of_dom. rewrite lookup_insert_eq. by eexists. }
  assert (Hne : fresh (dom (windows w)) ≠
                fresh (dom (<[fresh (dom (windows w)) :=
                         Window.__register_events (fresh (dom (windows w)))
                           (Window.set_update_rate update_rate1
                              (Window.blank (fresh (dom (windows w)))
                                 width1 height1))]> (windows w)))).
  { intros Heq. rewrite Heq in Hin at 1. by apply is_fresh in Hin. }
  split_and!; [exact Hne|reflexivity|reflexivity| |].
  - rewrite lookup_insert_eq. by eexists.
  - apply lookup_insert_ne. congruence.
Qed.

Lemma second_window_witness :
  let w1 := after (Window__init__ 800 600 (Some "one") (Some default_update_rate)) initial_world in
  let w2 := after (Window__init__ 640 480 (Some "two") (Some default_update_rate)) w1 in
  get_window w2 = Returns 1%nat w2
  ∧ windows w2 !! 0%nat = windows w1 !! 0%nat.
Proof.
  intros w1 w2.
  destruct (second_window 800 600 640 480 (Some "one") (Some "two")
              (Some default_update_rate) (Some default_update_rate)
              initial_world w1 w2 0 1) as (_ & _ & Hactive & _ & Hfirst).
  - vm_compute. reflexivity.
  - vm_compute. reflexivity.
  - by split.
Defined.

(** X22 — [Window(width, height, title=None)], which is what
    [open_window] builds when no title is passed, raises [TypeError] out of
    [set_title]: by then the object is the active window, so [get_window]
    returns it, and it has neither an update rate nor a registered
    handler. *)
Theorem window_without_title (width height : Z) (update_rate : option Q)
    (w : World) :
  let self := fresh (dom (windows w)) in
  let win := Window.blank self width height in
  let w' := set_windows (<[self := win]> (windows w))
                        (set__window (Some self) w) in
  Window__init__ width height None update_rate w = Raises TypeError w'
  ∧ open_window width height None w = Raises TypeError w'
  ∧ get_window w' = Returns self w'
  ∧ windows w' !! self = Some win
  ∧ Window.update_rate win = None
  ∧ (forall ty,
       EventManager.handlers_of (Window.event_manager win) ty = []).
Proof.
  intros self win w'.
  split_and!; [reflexivity|reflexivity|reflexivity| |reflexivity|].
  - unfold w'. cbn [windows set_windows]. apply lookup_insert_eq.
  - intros ty. apply blank_handlers.
Qed.

(** ** Custom events, rendering switches and view properties *)

Lemma create_userevents_spec requests : forall c,
  (create_userevents c requests).1 = c + Z.of_nat (length requests)
  ∧ forall i ue,
      (create_userevents c requests).2 !! i = Some ue ->
      UserEvent.type ue = USEREVENT (c + 1 + Z.of_nat i)
      ∧ UserEvent.dict ue !! "pgf_name"
        = name_value <$> (fst <$> requests !! i).
Proof.
  induction requests as [|[name d] requests IH]; intros c.
  - cbn. split; [lia|]. intros i ue Hi. by rewrite lookup_nil in Hi.
  - cbn [create_userevents].
    unfold UserEvent__init__, create_new_userevent.
    destruct (IH (c + 1)) as [Hcount Hevents].
    destruct (create_userevents (c + 1) requests) as [c' ues].
    cbn in Hcount, Hevents |- *. split; [lia|].
    intros [|i] ue Hi; cbn in Hi.
    + injection Hi as <-. cbn. split.
      * f_equal. lia.
      * unfold UserEvent.dict. cbn. by rewrite lookup_insert_eq.
    + destruct (Hevents i ue Hi) as [-> ->]. split; [f_equal; lia|done].
Qed.

(** X17 — Custom events built one after the other get the types
    [USEREVENT + (count + 1)], [USEREVENT + (count + 2)], ...: the counter
    grows by one with each event, no two events share a type, and each
    event carries its name under ["pgf_name"]. *)
Theorem userevent_types (count : Z)
    (requests : list (option string * option (gmap string PyVal))) :
  let count' := (create_userevents count requests).1 in
  let events := (create_userevents count requests).2 in
  get_userevent_count count'
    = get_userevent_count count + Z.of_nat (length requests)
  ∧ length events = length requests
  ∧ (forall i ue,
       events !! i = Some ue ->
       UserEvent.type ue = USEREVENT (count + 1 + Z.of_nat i)
       ∧ UserEvent.dict ue !! "pgf_name"
         = name_value <$> (fst <$> requests !! i))
  ∧ NoDup (UserEvent.type <$> events).
Proof.
  cbv zeta. destruct (create_userevents_spec requests count) as [Hcount Hevents].
  split_and!; [done| |done|].
  - clear. revert count.
    induction requests as [|[name d] requests IH]; intros count; [done|].
    cbn [create_userevents]. unfold UserEvent__init__, create_new_userevent.
    specialize (IH (count + 1)).
    destruct (create_userevents (count + 1) requests). cbn in *. by rewrite IH.
  - apply NoDup_alt. intros i j ty Hi Hj.
    apply list_lookup_fmap_Some in Hi as (ue1 & -> & Hi).
    apply list_lookup_fmap_Some in Hj as (ue2 & Hty & Hj).
    destruct (Hevents _ _ Hi) as [Hty1 _].
    destruct (Hevents _ _ Hj) as [Hty2 _].
    rewrite Hty1, Hty2 in Hty. injection Hty. lia.
Qed.

Lemma userevent_types_witness :
  let events :=
    (create_userevents 0 [(Some "tick", None); (None, None)]).2 in
  UserEvent.type <$> events = [USEREVENT 1; USEREVENT 2]
  ∧ NoDup (UserEvent.type <$> events)
  ∧ events !! 0%nat = Some tick_event.
Proof.
  intros events.
  destruct (userevent_types 0 [(Some "tick", None); (None, None)])
    as (_ & _ & Hevents & Hnodup).
  split; [reflexivity|]. split; [exact Hnodup|].
  assert (Hfirst : events !! 0%nat = Some tick_event) by reflexivity.
  destruct (Hevents 0%nat tick_event Hfirst) as [_ _]. exact Hfirst.
Defined.

(** X18 — The antialiasing and vsync queries never answer [True]:
    whatever switches the windows of a process are built with,
    [is_aa_enabled()] and [is_vsync_enabled()] return [False], because the
    assignments in [Window.__init__] go to the mangled globals
    [_Window__AA_ENABLED] and [_Window__VSYNC_ENABLED], which hold the
    switches of the window built last. *)
Theorem switches_never_enabled (switches : list (bool * bool)) :
  let g := foldl (fun g '(antialiasing, vsync) =>
                    window_globals.assign_switches antialiasing vsync g)
                 window_globals.at_import switches in
  window_globals.is_aa_enabled g = false
  ∧ window_globals.is_vsync_enabled g = false
  ∧ window_globals._Window__AA_ENABLED g = fst <$> last switches
  ∧ window_globals._Window__VSYNC_ENABLED g = snd <$> last switches.
Proof.
  cbv zeta. induction switches as [|[aa vs] switches IH] using rev_ind;
    [done|].
  rewrite foldl_snoc, last_snoc. destruct IH as (Haa & Hvs & _ & _).
  by split_and!.
Qed.

(** X19 — The [background_color] of a view is the one of its window:
    after a view has set it, every view on that window reads the new
    colour, the size and the handler bindings of the window are as
    before, and the global [set_background_color] does the same as the
    view's setter when that window is the active one. *)
Theorem view_background_shared (A B : View.t) (color : Color) (w : World)
    (win : Window.t) :
  windows w !! View.window A = Some win ->
  View.window B = View.window A ->
  let win' := Window.set_background_color color win in
  let w' := set_windows (<[View.window A := win']> (windows w)) w in
  View_set_background_color A color w = Returns tt w'
  ∧ View_background_color B w' = Returns color w'
  ∧ View_size B w' = Returns (Window.size win) w'
  ∧ Window.event_manager win' = Window.event_manager win
  ∧ Window.__dict__ win' = Window.__dict__ win
  ∧ (_window w = Some (View.window A) ->
       set_background_color color w = Returns tt w').
Proof.
  intros Hwin HB win' w'.
  assert (Hset : View_set_background_color A color w = Returns tt w').
  { unfold View_set_background_color. by apply update_eq. }
  assert (Hwin' : windows w' !! View.window B = Some win').
  { rewrite HB. unfold w'. cbn [windows set_windows]. apply lookup_insert_eq. }
  split_and!; [done| | |done|done|].
  - unfold View_background_color.
    by rewrite (bind_returns _ _ _ _ _ (deref_eq _ _ _ Hwin')).
  - unfold View_size.
    by rewrite (bind_returns _ _ _ _ _ (deref_eq _ _ _ Hwin')).
  - intros Hactive. unfold set_background_color.
    erewrite bind_returns; [|unfold get_window; by rewrite Hactive].
    exact Hset.
Qed.

Lemma view_background_shared_witness :
  exists w',
    View_set_background_color view1 (Named "black") two_views_world
      = Returns tt w'
    ∧ View_background_color view2 w' = Returns (Named "black") w'
    ∧ set_background_color (Named "black") two_views_world
      = Returns tt w'.
Proof.
  destruct (view_background_shared view1 view2 (Named "black")
              two_views_world two_views_window)
    as (Hset & Hget & _ & _ & _ & Hglobal).
  - vm_compute. reflexivity.
  - reflexivity.
  - eexists. split_and!; [exact Hset|exact Hget|].
    apply Hglobal. vm_compute. reflexivity.
Defined.
